(** * sngrep: capture manager and RTP stream bookkeeping

    A shallow embedding of [src/capture/capture.c] (the capture manager) and
    of [stream.c] (the RTP stream objects), together with the properties the
    behavioural specification states about them.

    Conventions of the embedding:
    - C integers are [Z] values kept in their range by an explicit wrap
      ([guint] 32 bits, [guint8] 8 bits, [gint64] 64 bits two's complement);
    - a pointer that may be [NULL] is an [option];
    - a [GSList]/[GList]/[GPtrArray] is a [list], in list order;
    - [gboolean] is [bool];
    - functions of other compilation units (the clock, [packet_time], the
      static RTP table, glib's main loop) are Section variables. *)

From Stdlib Require Import ZArith List String Bool Lia Permutation.
Import ListNotations.
Local Open Scope Z_scope.

(** ** Machine integers *)

Definition guint_modulus : Z := 2 ^ 32.
Definition wrap_guint (z : Z) : Z := z mod guint_modulus.
Definition wrap_guint8 (z : Z) : Z := z mod 2 ^ 8.
Definition gint64_half : Z := 2 ^ 63.
Definition wrap_gint64 (z : Z) : Z :=
  (z + gint64_half) mod (2 * gint64_half) - gint64_half.
Definition wrap_gint (z : Z) : Z := (z + 2 ^ 31) mod 2 ^ 32 - 2 ^ 31.

(** A reading of glib's monotonic clock: a non-negative [gint64]. *)
Definition clock_ok (t : Z) : Prop := 0 <= t < gint64_half.

(** ** Streams *)

Module Stream.

(** *** Plain data of the headers *)

Record GTimeVal := mkGTimeVal { tv_sec : Z; tv_usec : Z }.

Record Address := mkAddress { ip : string; port : Z }.

Inductive StreamType := STREAM_RTP | STREAM_RTCP.

(** One [a=rtpmap] entry of an SDP media section. *)
Record PacketSdpFormat := mkPacketSdpFormat {
  id : Z;
  name : option string;
  alias : option string
}.

(** The SDP media section a stream was negotiated by; only the dynamic
    format list is read by the code embedded here. *)
Record PacketSdpMedia := mkPacketSdpMedia {
  formats : list PacketSdpFormat
}.

(** One row of the static RTP payload type table. *)
Record PacketRtpEncoding := mkPacketRtpEncoding {
  enc_id : Z;
  format : option string;
  enc_name : option string
}.

Section WithCollaborators.

(** The SIP message type and the packet type of the other units. *)
Variable Message : Type.
Variable Packet : Type.
(** [packet_time]: capture timestamp of a packet. *)
Variable packet_time : Packet -> GTimeVal.
(** [packet_rtp_standard_codec]: lookup in the static payload type table,
    [None] for the NULL it returns on a code that is not there. *)
Variable packet_rtp_standard_codec : Z -> option PacketRtpEncoding.
(** The inactivity threshold macro of [stream.h]. *)
Variable STREAM_INACTIVE_SECS : Z.

(** The fields of [struct _Stream] that [stream.c] reads or writes.
    [fmtcode] is a [guint8], [lasttm] a [gint64] clock reading, [pkt_count]
    a [guint] like the value [stream_get_count] returns. *)
Record Stream := mkStream {
  type : StreamType;
  src : Address;
  dst : Address;
  media : option PacketSdpMedia;
  msg : option Message;
  firsttv : GTimeVal;
  fmtcode : Z;
  lasttm : Z;
  changed : bool;
  packets : list Packet;
  pkt_count : Z
}.

Definition zero_address : Address := mkAddress EmptyString 0.
Definition zero_timeval : GTimeVal := mkGTimeVal 0 0.

(** [stream_new]: [g_malloc0] zeroes every field, then the three arguments
    and a new empty pointer array are stored. *)
Definition stream_new (ty : StreamType) (m : option Message)
           (md : option PacketSdpMedia) : Stream :=
  {| type := ty;
     src := zero_address;
     dst := zero_address;
     media := md;
     msg := m;
     firsttv := zero_timeval;
     fmtcode := 0;
     lasttm := 0;
     changed := false;
     packets := [];
     pkt_count := 0 |}.

Definition stream_set_src (s : Stream) (a : Address) : Stream :=
  {| type := type s; src := a; dst := dst s; media := media s;
     msg := msg s; firsttv := firsttv s; fmtcode := fmtcode s;
     lasttm := lasttm s; changed := changed s; packets := packets s;
     pkt_count := pkt_count s |}.

Definition stream_set_dst (s : Stream) (a : Address) : Stream :=
  {| type := type s; src := src s; dst := a; media := media s;
     msg := msg s; firsttv := firsttv s; fmtcode := fmtcode s;
     lasttm := lasttm s; changed := changed s; packets := packets s;
     pkt_count := pkt_count s |}.

Definition stream_set_data (s : Stream) (a b : Address) : Stream :=
  {| type := type s; src := a; dst := b; media := media s;
     msg := msg s; firsttv := firsttv s; fmtcode := fmtcode s;
     lasttm := lasttm s; changed := changed s; packets := packets s;
     pkt_count := pkt_count s |}.

(** The parameter is a [guint8]: the argument is converted at the call. *)
Definition stream_set_format (s : Stream) (fmt : Z) : Stream :=
  {| type := type s; src := src s; dst := dst s; media := media s;
     msg := msg s; firsttv := firsttv s; fmtcode := wrap_guint8 fmt;
     lasttm := lasttm s; changed := changed s; packets := packets s;
     pkt_count := pkt_count s |}.

(** [stream_add_packet], with the clock reading [now] made explicit.
    [pkt_count] is a [guint]: the increment wraps. *)
Definition stream_add_packet (now : Z) (s : Stream) (p : Packet) : Stream :=
  let count := wrap_guint (pkt_count s + 1) in
  {| type := type s; src := src s; dst := dst s; media := media s;
     msg := msg s;
     firsttv := if count =? 1 then packet_time p else firsttv s;
     fmtcode := fmtcode s;
     lasttm := now;
     changed := true;
     packets := packets s;
     pkt_count := count |}.

Definition stream_get_count (s : Stream) : Z := pkt_count s.

(** The [for] loop of [stream_get_format]: [i] is the loop index, [todo]
    the number of indices still below [g_list_length]. *)
Fixpoint format_scan (fs : list PacketSdpFormat) (code : Z)
         (i todo : nat) : option string :=
  match todo with
  | O => None
  | S todo' =>
      match nth_error fs i with
      | Some f => if id f =? code then alias f
                  else format_scan fs code (S i) todo'
      | None => None
      end
  end.

(** [stream_get_format]; the argument is a pointer that may be NULL. *)
Definition stream_get_format (sp : option Stream) : option string :=
  match sp with
  | None => None
  | Some s =>
      match media s with
      | None => None
      | Some md =>
          match packet_rtp_standard_codec (fmtcode s) with
          | Some encoding => format encoding
          | None => format_scan (formats md) (fmtcode s) 0
                                (List.length (formats md))
          end
      end
  end.

Definition stream_time (s : Stream) : GTimeVal := firsttv s.

(** [stream_is_active], with the clock reading [now] made explicit; the
    subtraction is a [gint64] one. *)
Definition stream_is_active (now : Z) (s : Stream) : bool :=
  wrap_gint64 (now - lasttm s) <=? STREAM_INACTIVE_SECS.

(** A run of [stream_add_packet] calls, one per (clock reading, packet)
    pair, oldest first. *)
Definition add_packets (s : Stream) (calls : list (Z * Packet)) : Stream :=
  fold_left (fun st c => stream_add_packet (fst c) st (snd c)) calls s.

(** The test of the scan, as a predicate on entries. *)
Definition matches (code : Z) (f : PacketSdpFormat) : bool := id f =? code.

(** A stream pointer that is NULL or whose media back-reference is NULL. *)
Definition without_media (sp : option Stream) : Prop :=
  match sp with
  | None => True
  | Some s => media s = None
  end.

(** *** Sequences of calls

    The functions of [stream.c] that act on an existing stream, as a value,
    and a stream taken through a sequence of them. *)
Inductive StreamCall :=
| SetSrc (a : Address)
| SetDst (a : Address)
| SetData (a b : Address)
| SetFormat (fmt : Z)
| AddPacket (now : Z) (p : Packet).

Definition call (s : Stream) (c : StreamCall) : Stream :=
  match c with
  | SetSrc a => stream_set_src s a
  | SetDst a => stream_set_dst s a
  | SetData a b => stream_set_data s a b
  | SetFormat fmt => stream_set_format s fmt
  | AddPacket now p => stream_add_packet now s p
  end.

Definition run (s : Stream) (cs : list StreamCall) : Stream :=
  fold_left call cs s.

(** The [stream_add_packet] calls of a sequence, in order. *)
Definition added (cs : list StreamCall) : list (Z * Packet) :=
  flat_map (fun c => match c with
                     | AddPacket now p => [(now, p)]
                     | _ => []
                     end) cs.

Definition sets_format (c : StreamCall) : bool :=
  match c with SetFormat _ => true | _ => false end.

(** The four fields [stream_add_packet] writes. *)
Definition accounting (s : Stream) : Z * GTimeVal * Z * bool :=
  (pkt_count s, firsttv s, lasttm s, changed s).

End WithCollaborators.
End Stream.

(** ** The capture manager *)

Module Capture.

(** Modelled from the spec: the capture mode tag of [capture.h], which the
    specification gives as live, offline replay or listener; the code only
    ever compares it with [CAPTURE_MODE_OFFLINE]. *)
Inductive CaptureMode :=
| CAPTURE_MODE_ONLINE
| CAPTURE_MODE_OFFLINE
| CAPTURE_MODE_LISTEN.

Definition is_offline (md : CaptureMode) : bool :=
  match md with CAPTURE_MODE_OFFLINE => true | _ => false end.

Section WithWorld.

(** Everything the callbacks and glib act upon: capture handles, dump
    files, sockets, the main loop and its thread, the [GError] slot. *)
Variable World : Type.
Variable Packet : Type.
Variables GSource GMainLoop GThread : Type.
Variable g_source_is_destroyed : GSource -> World -> bool.
Variable g_source_attach : GSource -> GMainLoop -> World -> World.
Variable g_main_loop_quit : GMainLoop -> World -> World.
Variable g_thread_join : GThread -> World -> World.

(** A capture input.  Each callback is a closure over its own object (the
    [input] pointer the C code passes back as first argument). *)
Record CaptureInput := mkCaptureInput {
  mode : CaptureMode;
  source : GSource;
  filter : option (option string -> World -> bool * World);
  free : option (World -> World)
}.

(** A capture output; [ofree] is its [free] member. *)
Record CaptureOutput := mkCaptureOutput {
  write : option (Packet -> World -> World);
  close : option (World -> World);
  ofree : option (World -> World)
}.

(** The manager; [mfilter] is its [filter] member. *)
Record CaptureManager := mkCaptureManager {
  inputs : list CaptureInput;
  outputs : list CaptureOutput;
  mfilter : option string;
  keyfile : option string;
  paused : bool;
  loop : GMainLoop;
  thread : GThread
}.

(** *** Calls leaving the manager

    The calls the manager makes into inputs, outputs and glib are recorded,
    oldest first, next to the world they act upon. *)
Inductive Event :=
| EvFilter (input : CaptureInput) (expr : option string) (accepted : bool)
| EvClose (output : CaptureOutput)
| EvWrite (output : CaptureOutput) (packet : Packet)
| EvLoopQuit (l : GMainLoop)
| EvThreadJoin (t : GThread).

Record State := mkState { calls : list Event; world : World }.

Definition M (A : Type) : Type := State -> A * State.
Definition ret {A} (a : A) : M A := fun st => (a, st).
Definition bind {A B} (c : M A) (k : A -> M B) : M B :=
  fun st => let (a, st') := c st in k a st'.
Definition record (e : Event) : M unit :=
  fun st => (tt, mkState (calls st ++ [e]) (world st)).
Definition act (f : World -> World) : M unit :=
  fun st => (tt, mkState (calls st) (f (world st))).
Definition ask {A} (f : World -> A * World) : M A :=
  fun st => let (a, w) := f (world st) in (a, mkState (calls st) w).

Notation "x <- c ;; k" := (bind c (fun x => k))
  (at level 61, c at next level, right associativity).
Notation "c ;;; k" := (bind c (fun _ => k))
  (at level 61, right associativity).

(** [input->filter(input, filter, error)] *)
Definition call_filter (input : CaptureInput)
           (cb : option string -> World -> bool * World)
           (expr : option string) : M bool :=
  ok <- ask (cb expr) ;;
  record (EvFilter input expr ok) ;;;
  ret ok.

(** [output->close(output)] *)
Definition call_close (output : CaptureOutput) (cb : World -> World)
  : M unit :=
  act cb ;;; record (EvClose output).

(** [output->write(output, packet)] *)
Definition call_write (output : CaptureOutput)
           (cb : Packet -> World -> World) (packet : Packet) : M unit :=
  act (cb packet) ;;; record (EvWrite output packet).

(** *** capture.c *)

Definition g_strdup (s : option string) : option string := s.

Definition with_filter (m : CaptureManager) (f : option string)
  : CaptureManager :=
  {| inputs := inputs m; outputs := outputs m; mfilter := f;
     keyfile := keyfile m; paused := paused m; loop := loop m;
     thread := thread m |}.

(** The close loop of [capture_manager_stop], from list node [le] on. *)
Fixpoint stop_outputs (le : list CaptureOutput) : M unit :=
  match le with
  | [] => ret tt
  | output :: next =>
      match close output with
      | Some cb => call_close output cb ;;; stop_outputs next
      | None => stop_outputs next
      end
  end.

Definition capture_manager_stop (m : CaptureManager) : M unit :=
  stop_outputs (outputs m) ;;;
  act (g_main_loop_quit (loop m)) ;;;
  record (EvLoopQuit (loop m)) ;;;
  act (g_thread_join (thread m)) ;;;
  record (EvThreadJoin (thread m)).

(** [capture_manager_set_filter] from list node [le] on; the empty list is
    the code after the loop.  The manager is returned as updated. *)
Fixpoint set_filter_from (m : CaptureManager) (le : list CaptureInput)
         (expr : option string) : M (bool * CaptureManager) :=
  match le with
  | [] => ret (true, with_filter m (g_strdup expr))
  | input :: next =>
      match filter input with
      | Some cb =>
          ok <- call_filter input cb expr ;;
          if negb ok then ret (false, with_filter m None)
          else set_filter_from m next expr
      | None => set_filter_from m next expr
      end
  end.

Definition capture_manager_set_filter (m : CaptureManager)
           (expr : option string) : M (bool * CaptureManager) :=
  set_filter_from m (inputs m) expr.

Definition capture_manager_filter (m : CaptureManager) : option string :=
  mfilter m.

Definition capture_manager_set_keyfile (m : CaptureManager)
           (k : option string) : CaptureManager :=
  {| inputs := inputs m; outputs := outputs m; mfilter := mfilter m;
     keyfile := k; paused := paused m; loop := loop m;
     thread := thread m |}.

Definition capture_manager_add_input (m : CaptureManager)
           (input : CaptureInput) : M CaptureManager :=
  act (g_source_attach (source input) (loop m)) ;;;
  ret {| inputs := inputs m ++ [input]; outputs := outputs m;
         mfilter := mfilter m; keyfile := keyfile m; paused := paused m;
         loop := loop m; thread := thread m |}.

Definition capture_manager_add_output (m : CaptureManager)
           (output : CaptureOutput) : CaptureManager :=
  {| inputs := inputs m; outputs := outputs m ++ [output];
     mfilter := mfilter m; keyfile := keyfile m; paused := paused m;
     loop := loop m; thread := thread m |}.

(** The write loop of [capture_manager_output_packet]. *)
Fixpoint output_packet_from (l : list CaptureOutput) (packet : Packet)
  : M unit :=
  match l with
  | [] => ret tt
  | output :: next =>
      match write output with
      | Some cb => call_write output cb packet ;;;
                   output_packet_from next packet
      | None => output_packet_from next packet
      end
  end.

Definition capture_manager_output_packet (m : CaptureManager)
           (packet : Packet) : M unit :=
  output_packet_from (outputs m) packet.

(** The three [int] counters of [capture_status_desc]. *)
Record Counters := mkCounters { online : Z; offline : Z; loading : Z }.

Definition incr (n : Z) : Z := wrap_gint (n + 1).

(** The counting loop of [capture_status_desc], from list node [l] on. *)
Fixpoint count_inputs (w : World) (l : list CaptureInput) (c : Counters)
  : Counters :=
  match l with
  | [] => c
  | input :: next =>
      count_inputs w next
        (if is_offline (mode input) then
           mkCounters (online c) (incr (offline c))
                      (if negb (g_source_is_destroyed (source input) w)
                       then incr (loading c) else loading c)
         else
           mkCounters (incr (online c)) (offline c) (loading c))
  end.

(** [capture_status_desc]; it reads the world but changes nothing.  The
    [USE_HEP] block of the source is guarded by a constant [FALSE]. *)
Definition capture_status_desc (m : CaptureManager) (w : World) : string :=
  let c := count_inputs w (inputs m) (mkCounters 0 0 0) in
  if paused m then
    if (online c >? 0) && (offline c =? 0) then "Online (Paused)"
    else if (online c =? 0) && (offline c >? 0) then "Offline (Paused)"
    else "Mixed (Paused)"
  else if loading c >? 0 then
    if (online c >? 0) && (offline c =? 0) then "Online (Loading)"
    else if (online c =? 0) && (offline c >? 0) then "Offline (Loading)"
    else "Mixed (Loading)"
  else
    if (online c >? 0) && (offline c =? 0) then "Online"
    else if (online c =? 0) && (offline c >? 0) then "Offline"
    else "Mixed".

Definition capture_keyfile (m : CaptureManager) : option string :=
  keyfile m.

(** [capture_is_online]: leaves the loop at the first offline input. *)
Fixpoint is_online_from (l : list CaptureInput) : bool :=
  match l with
  | [] => true
  | input :: next =>
      if is_offline (mode input) then false else is_online_from next
  end.

Definition capture_is_online (m : CaptureManager) : bool :=
  is_online_from (inputs m).

(** [g_slist_length] returns a [guint]. *)
Definition capture_sources_count (m : CaptureManager) : Z :=
  wrap_guint (Z.of_nat (List.length (inputs m))).

Definition capture_manager_set_pause (m : CaptureManager) (p : bool)
  : CaptureManager :=
  {| inputs := inputs m; outputs := outputs m; mfilter := mfilter m;
     keyfile := keyfile m; paused := p; loop := loop m;
     thread := thread m |}.

(** *** Construction, start and release *)

(** [g_main_loop_new (g_main_context_new (), FALSE)]: a new loop on a new
    context. *)
Variable g_main_loop_new : World -> GMainLoop * World.
(** [g_thread_new (NULL, capture_manager_thread, manager)]: the new thread
    runs the loop of the manager it is given. *)
Variable g_thread_new : GMainLoop -> World -> GThread * World.
(** The NULL thread handle [g_malloc0] leaves in a new manager. *)
Variable no_thread : GThread.

(** [capture_manager_new] without [WITH_SSL]; the manager is returned, the
    file-level pointer that also receives it is read by [capture_manager]
    only. *)
Definition capture_manager_new : M CaptureManager :=
  l <- ask g_main_loop_new ;;
  ret {| inputs := []; outputs := []; mfilter := None; keyfile := None;
         paused := false; loop := l; thread := no_thread |}.

Definition capture_manager_start (m : CaptureManager) : M CaptureManager :=
  t <- ask (g_thread_new (loop m)) ;;
  ret {| inputs := inputs m; outputs := outputs m; mfilter := mfilter m;
         keyfile := keyfile m; paused := paused m; loop := loop m;
         thread := t |}.

(** The first loop of [capture_manager_free]. *)
Fixpoint free_inputs (le : list CaptureInput) : M unit :=
  match le with
  | [] => ret tt
  | input :: next =>
      match free input with
      | Some cb => act cb ;;; free_inputs next
      | None => free_inputs next
      end
  end.

(** The second loop of [capture_manager_free]. *)
Fixpoint free_outputs (le : list CaptureOutput) : M unit :=
  match le with
  | [] => ret tt
  | output :: next =>
      match ofree output with
      | Some cb => act cb ;;; free_outputs next
      | None => free_outputs next
      end
  end.

(** [capture_manager_free]: the two loops; the releases of the lists, the
    filter string, the loop reference and the manager follow and call into
    no input or output. *)
Definition capture_manager_free (m : CaptureManager) : M unit :=
  free_inputs (inputs m) ;;; free_outputs (outputs m).

(** Packets handed to [capture_manager_output_packet] one after the other,
    as the capture thread does. *)
Fixpoint output_packets (m : CaptureManager) (ps : list Packet) : M unit :=
  match ps with
  | [] => ret tt
  | p :: rest => capture_manager_output_packet m p ;;; output_packets m rest
  end.

(** The world once every free operation present has run, inputs first. *)
Definition freed_world (ins : list CaptureInput) (outs : list CaptureOutput)
           (w : World) : World :=
  fold_left (fun acc output =>
               match ofree output with Some cb => cb acc | None => acc end)
            outs
            (fold_left (fun acc input =>
                          match free input with
                          | Some cb => cb acc
                          | None => acc
                          end)
                       ins w).

(** *** Vocabulary of the properties *)

Definition has_filter (input : CaptureInput) : bool :=
  match filter input with Some _ => true | None => false end.

Definition has_close (output : CaptureOutput) : bool :=
  match close output with Some _ => true | None => false end.

Definition has_write (output : CaptureOutput) : bool :=
  match write output with Some _ => true | None => false end.

(** The world once every close operation present in [l] has run, in list
    order. *)
Definition closed_world (l : list CaptureOutput) (w : World) : World :=
  fold_left (fun acc output =>
               match close output with Some cb => cb acc | None => acc end)
            l w.

(** The world once every write operation present in [l] has run on
    [packet], in list order. *)
Definition written_world (l : list CaptureOutput) (packet : Packet)
           (w : World) : World :=
  fold_left (fun acc output =>
               match write output with
               | Some cb => cb packet acc
               | None => acc
               end)
            l w.

(** [accepts_all expr l w w']: started in world [w], every input of [l] that
    has a filter operation accepts [expr], one after the other, and the
    world is [w'] afterwards. *)
Inductive accepts_all (expr : option string)
  : list CaptureInput -> World -> World -> Prop :=
| accepts_nil w : accepts_all expr [] w w
| accepts_skip input next w w' :
    filter input = None ->
    accepts_all expr next w w' ->
    accepts_all expr (input :: next) w w'
| accepts_cons input next cb w w1 w' :
    filter input = Some cb ->
    cb expr w = (true, w1) ->
    accepts_all expr next w1 w' ->
    accepts_all expr (input :: next) w w'.

Definition filter_accepted (expr : option string) (input : CaptureInput)
  : Event := EvFilter input expr true.

Definition live (input : CaptureInput) : bool := negb (is_offline (mode input)).
Definition replaying (input : CaptureInput) : bool := is_offline (mode input).
Definition still_loading (w : World) (input : CaptureInput) : bool :=
  is_offline (mode input) && negb (g_source_is_destroyed (source input) w).

Definition how_many (f : CaptureInput -> bool) (l : list CaptureInput) : Z :=
  Z.of_nat (List.length (List.filter f l)).

End WithWorld.

(** The status text as the specification words it: a category, then a
    suffix. *)
Definition status_category (some_online some_offline : bool) : string :=
  if some_online && negb some_offline then "Online"
  else if negb some_online && some_offline then "Offline"
  else "Mixed".

Definition status_suffix (is_paused some_loading : bool) : string :=
  if is_paused then " (Paused)"
  else if some_loading then " (Loading)"
  else "".

Definition status_text (is_paused some_online some_offline some_loading : bool)
  : string :=
  status_category some_online some_offline
  ++ status_suffix is_paused some_loading.

End Capture.

(** ** Small instances to run the definitions on *)

Module Sample.
Import Stream.

(** A packet is identified with the second it was captured at. *)
Definition Packet : Type := Z.
Definition packet_time (p : Packet) : GTimeVal := mkGTimeVal p 0.
Definition Message : Type := unit.

Definition pcmu : PacketRtpEncoding :=
  mkPacketRtpEncoding 0 (Some "PCMU/8000"%string) (Some "g711u"%string).
Definition pcma : PacketRtpEncoding :=
  mkPacketRtpEncoding 8 (Some "PCMA/8000"%string) (Some "g711a"%string).

(** A static table holding the two G.711 rows. *)
Definition standard_codec (code : Z) : option PacketRtpEncoding :=
  if code =? 0 then Some pcmu
  else if code =? 8 then Some pcma
  else None.

Definition inactive_secs : Z := 3.

Definition opus : PacketSdpFormat :=
  mkPacketSdpFormat 96 (Some "opus/48000/2"%string) (Some "opus"%string).
Definition telephone_event : PacketSdpFormat :=
  mkPacketSdpFormat 101 (Some "telephone-event/8000"%string)
                    (Some "telephone-event"%string).
(** A dynamic entry that reuses the static code 0. *)
Definition shadow_pcmu : PacketSdpFormat :=
  mkPacketSdpFormat 0 (Some "custom/8000"%string) (Some "custom"%string).

Definition sdp_media : PacketSdpMedia :=
  mkPacketSdpMedia [shadow_pcmu; opus; telephone_event].

Definition fresh (md : option PacketSdpMedia) : Stream Message Packet :=
  stream_new Message Packet STREAM_RTP None md.

(** As many calls as a [guint] has values, all with the same packet. *)
Definition guint_many_calls : list (Z * Packet) :=
  repeat (5, 7) (Z.to_nat guint_modulus).

Definition pcmu_stream (md : option PacketSdpMedia) : Stream Message Packet :=
  stream_set_format _ _ (fresh md) 0.

Definition opus_stream (md : option PacketSdpMedia) : Stream Message Packet :=
  stream_set_format _ _ (fresh md) 96.

Definition caller : Address := mkAddress "10.0.0.1"%string 4000.
Definition callee : Address := mkAddress "10.0.0.2"%string 6000.

(** Endpoints set, two packets taken, no format change. *)
Definition busy_calls : list (StreamCall Packet) :=
  [SetSrc _ caller; AddPacket _ 10 100; SetDst _ callee; AddPacket _ 12 200].

(** Setters only. *)
Definition idle_calls : list (StreamCall Packet) :=
  [SetData _ caller callee; SetFormat _ 96].

(** The capture side: the world is the journal the callbacks write, a
    source handle is its destroyed flag, a packet is a number. *)
Definition World : Type := list string.
Definition GSource : Type := bool.
Definition g_source_is_destroyed (src : GSource) (_ : World) : bool := src.
Definition g_main_loop_quit (_ : unit) (w : World) : World :=
  w ++ ["loop quit"%string].
Definition g_thread_join (_ : unit) (w : World) : World :=
  w ++ ["thread joined"%string].

Definition Input : Type := Capture.CaptureInput World GSource.
Definition Output : Type := Capture.CaptureOutput World Packet.
Definition Manager : Type := Capture.CaptureManager World Packet GSource unit unit.

Definition accepting (tag : string) (_ : option string) (w : World)
  : bool * World := (true, w ++ [tag]).
Definition rejecting (tag : string) (_ : option string) (w : World)
  : bool * World := (false, w ++ [tag]).

Definition pcap_live : Input :=
  Capture.mkCaptureInput _ _ Capture.CAPTURE_MODE_ONLINE false
    (Some (accepting "live: filter set"%string)) None.
Definition pcap_file : Input :=
  Capture.mkCaptureInput _ _ Capture.CAPTURE_MODE_OFFLINE false
    (Some (accepting "file: filter set"%string)) None.
Definition pcap_picky : Input :=
  Capture.mkCaptureInput _ _ Capture.CAPTURE_MODE_ONLINE false
    (Some (rejecting "picky: syntax error"%string)) None.
Definition hep_listen : Input :=
  Capture.mkCaptureInput _ _ Capture.CAPTURE_MODE_LISTEN false None None.

Definition pcap_dump : Output :=
  Capture.mkCaptureOutput _ _
    (Some (fun (_ : Packet) w => w ++ ["dump: written"%string]))
    (Some (fun w => w ++ ["dump: closed"%string])) None.
Definition hep_send : Output :=
  Capture.mkCaptureOutput _ _
    (Some (fun (_ : Packet) w => w ++ ["hep: sent"%string])) None None.
Definition txt_sink : Output :=
  Capture.mkCaptureOutput _ _ None
    (Some (fun w => w ++ ["txt: closed"%string])) None.

Definition manager_of (ins : list Input) (outs : list Output) (p : bool)
  : Manager :=
  Capture.mkCaptureManager _ _ _ _ _ ins outs None None p tt tt.

Definition start_state : Capture.State World Packet GSource unit unit :=
  Capture.mkState _ _ _ _ _ [] [].
End Sample.

(** * Properties *)

(** ** Machine integer facts *)

Lemma wrap_guint_small (z : Z) : 0 <= z < guint_modulus -> wrap_guint z = z.
Proof. intros H. unfold wrap_guint. now apply Z.mod_small. Qed.

Lemma wrap_guint_range (z : Z) : 0 <= wrap_guint z < guint_modulus.
Proof. unfold wrap_guint, guint_modulus. apply Z.mod_pos_bound. lia. Qed.

Lemma wrap_guint_succ (z : Z) :
  wrap_guint (wrap_guint z + 1) = wrap_guint (z + 1).
Proof.
  unfold wrap_guint, guint_modulus.
  rewrite Zplus_mod_idemp_l. reflexivity.
Qed.

Lemma wrap_gint64_small (z : Z) :
  - gint64_half <= z < gint64_half -> wrap_gint64 z = z.
Proof.
  intros H. unfold wrap_gint64.
  rewrite Z.mod_small; lia.
Qed.

Lemma wrap_gint_small (z : Z) : - 2 ^ 31 <= z < 2 ^ 31 -> wrap_gint z = z.
Proof.
  intros H. unfold wrap_gint.
  rewrite Z.mod_small; lia.
Qed.

Lemma clock_diff_exact (a b : Z) :
  clock_ok a -> clock_ok b -> wrap_gint64 (a - b) = a - b.
Proof.
  unfold clock_ok. intros Ha Hb. apply wrap_gint64_small. lia.
Qed.

(** ** Streams *)

Module StreamFacts.
Import Stream.

Section WithCollaborators.

Context {Message Packet : Type}.
Variable packet_time : Packet -> GTimeVal.
Variable packet_rtp_standard_codec : Z -> option PacketRtpEncoding.
Variable STREAM_INACTIVE_SECS : Z.

Local Abbreviation Stream := (Stream Message Packet).
Local Abbreviation stream_new := (stream_new Message Packet).
Local Abbreviation stream_add_packet := (stream_add_packet Message Packet packet_time).
Local Abbreviation add_packets := (add_packets Message Packet packet_time).
Local Abbreviation stream_get_count := (stream_get_count Message Packet).
Local Abbreviation stream_time := (stream_time Message Packet).
Local Abbreviation stream_get_format :=
  (stream_get_format Message Packet packet_rtp_standard_codec).
Local Abbreviation without_media := (without_media Message Packet).
Local Abbreviation stream_is_active :=
  (stream_is_active Message Packet STREAM_INACTIVE_SECS).

(** *** Runs of [stream_add_packet] *)

Lemma add_packets_nil (s : Stream) : add_packets s [] = s.
Proof. reflexivity. Qed.

Lemma add_packets_cons (s : Stream) (c : Z * Packet) (rest : list (Z * Packet)) :
  add_packets s (c :: rest) =
  add_packets (stream_add_packet (fst c) s (snd c)) rest.
Proof. reflexivity. Qed.

Lemma add_packets_snoc (s : Stream) (l : list (Z * Packet)) (c : Z * Packet) :
  add_packets s (l ++ [c]) =
  stream_add_packet (fst c) (add_packets s l) (snd c).
Proof. unfold Stream.add_packets. now rewrite fold_left_app. Qed.

(** The counter after a run, from any starting value. *)
Lemma add_packets_count (s : Stream) (l : list (Z * Packet)) :
  pkt_count _ _ (add_packets s l) =
  match l with
  | [] => pkt_count _ _ s
  | _ => wrap_guint (pkt_count _ _ s + Z.of_nat (List.length l))
  end.
Proof.
  induction l as [|c l IH] using rev_ind; [reflexivity|].
  rewrite add_packets_snoc.
  cbn [Stream.stream_add_packet pkt_count].
  rewrite IH, length_app, Nat2Z.inj_add.
  cbn [List.length].
  destruct l as [|d l].
  - cbn [app]. f_equal.
  - cbn [app]. rewrite wrap_guint_succ. f_equal. lia.
Qed.

Lemma add_packets_count_fresh ty (m : option Message) md (l : list (Z * Packet)) :
  stream_get_count (add_packets (stream_new ty m md) l) =
  wrap_guint (Z.of_nat (List.length l)).
Proof.
  unfold Stream.stream_get_count. rewrite add_packets_count.
  destruct l; reflexivity.
Qed.

(** A further run leaves the first-packet time alone as long as the
    counter, already past zero, does not wrap beyond zero. *)
Lemma add_packets_firsttv_kept (s : Stream) (l : list (Z * Packet)) :
  1 <= pkt_count _ _ s ->
  pkt_count _ _ s + Z.of_nat (List.length l) <= guint_modulus ->
  firsttv _ _ (add_packets s l) = firsttv _ _ s.
Proof.
  intros Hlo.
  induction l as [|c l IH] using rev_ind; intros Hhi; [reflexivity|].
  rewrite length_app, Nat2Z.inj_add in Hhi. cbn [List.length] in Hhi.
  rewrite add_packets_snoc.
  cbn [Stream.stream_add_packet firsttv].
  rewrite <- IH by lia.
  rewrite add_packets_count.
  assert (Hne : (wrap_guint (pkt_count _ _ s + Z.of_nat (List.length l) + 1) =? 1) = false).
  { apply Z.eqb_neq. unfold wrap_guint.
    assert (Hc : pkt_count _ _ s + Z.of_nat (List.length l) + 1 = guint_modulus
                 \/ pkt_count _ _ s + Z.of_nat (List.length l) + 1 < guint_modulus) by lia.
    destruct Hc as [Hc|Hc].
    - rewrite Hc, Z.mod_same by (unfold guint_modulus; lia). lia.
    - rewrite Z.mod_small by lia. lia. }
  destruct l as [|d l].
  - cbn [List.length Z.of_nat] in Hne. rewrite Z.add_0_r in Hne.
    now rewrite Hne.
  - rewrite wrap_guint_succ, Hne. reflexivity.
Qed.

(** A call that finds the counter at zero records its packet's time. *)
Lemma add_packet_records_first_time now (s : Stream) p :
  stream_get_count s = 0 ->
  stream_time (stream_add_packet now s p) = packet_time p.
Proof.
  intros H. unfold Stream.stream_time, Stream.stream_get_count in *.
  cbn [Stream.stream_add_packet firsttv]. now rewrite H.
Qed.

(** What the first call on a fresh stream records. *)
Lemma first_packet_recorded ty (m : option Message) md now p :
  let s := stream_add_packet now (stream_new ty m md) p in
  pkt_count _ _ s = 1 /\ firsttv _ _ s = packet_time p.
Proof. split; reflexivity. Qed.

(** Claim C3, as the code has it: for every run of N < 2^32 calls of
    [stream_add_packet] on a freshly constructed stream, [stream_get_count]
    returns N and the first-packet time is the capture time of the packet of
    the first call, whatever was passed afterwards; every single call stores
    the clock reading as last-activity time and sets the changed flag. *)
Theorem add_packets_count_and_first_time
        ty (m : option Message) md (calls : list (Z * Packet)) :
  Z.of_nat (List.length calls) < guint_modulus ->
  stream_get_count (add_packets (stream_new ty m md) calls)
    = Z.of_nat (List.length calls)
  /\ (forall now p rest,
        calls = (now, p) :: rest ->
        stream_time (add_packets (stream_new ty m md) calls) = packet_time p)
  /\ (forall (s : Stream) now p,
        lasttm _ _ (stream_add_packet now s p) = now
        /\ changed _ _ (stream_add_packet now s p) = true)
  /\ (forall before now p,
        calls = before ++ [(now, p)] ->
        lasttm _ _ (add_packets (stream_new ty m md) calls) = now
        /\ changed _ _ (add_packets (stream_new ty m md) calls) = true).
Proof.
  intros Hlen. split; [|split; [|split]].
  - rewrite add_packets_count_fresh. apply wrap_guint_small. lia.
  - intros now p rest ->. rewrite add_packets_cons.
    unfold Stream.stream_time. cbn [fst snd].
    rewrite add_packets_firsttv_kept.
    + reflexivity.
    + cbn. lia.
    + cbn [List.length] in Hlen.
      replace (pkt_count _ _ (stream_add_packet now (stream_new ty m md) p))
        with 1 by reflexivity.
      lia.
  - intros s now p. split; reflexivity.
  - intros before now p ->. rewrite add_packets_snoc. split; reflexivity.
Qed.

(** *** The frame of [stream_add_packet] *)

Lemma add_packet_frame_step now (s : Stream) p :
  packets _ _ (stream_add_packet now s p) = packets _ _ s
  /\ type _ _ (stream_add_packet now s p) = type _ _ s
  /\ msg _ _ (stream_add_packet now s p) = msg _ _ s
  /\ media _ _ (stream_add_packet now s p) = media _ _ s
  /\ src _ _ (stream_add_packet now s p) = src _ _ s
  /\ dst _ _ (stream_add_packet now s p) = dst _ _ s
  /\ fmtcode _ _ (stream_add_packet now s p) = fmtcode _ _ s.
Proof. repeat split. Qed.

(** Claim C9, as the code has it: no run of [stream_add_packet] calls
    touches the packet container, the type, the message and media
    back-references, the two endpoints or the format code; on a fresh stream
    the container stays empty while [stream_get_count] is the number of
    calls modulo 2^32; and a call whose incremented counter is not 1 leaves
    the first-packet time as it was. *)
Theorem add_packets_frame (s : Stream) (calls : list (Z * Packet)) :
  (packets _ _ (add_packets s calls) = packets _ _ s
   /\ type _ _ (add_packets s calls) = type _ _ s
   /\ msg _ _ (add_packets s calls) = msg _ _ s
   /\ media _ _ (add_packets s calls) = media _ _ s
   /\ src _ _ (add_packets s calls) = src _ _ s
   /\ dst _ _ (add_packets s calls) = dst _ _ s
   /\ fmtcode _ _ (add_packets s calls) = fmtcode _ _ s)
  /\ (forall ty m md,
        packets _ _ (add_packets (stream_new ty m md) calls) = []
        /\ stream_get_count (add_packets (stream_new ty m md) calls)
           = wrap_guint (Z.of_nat (List.length calls)))
  /\ (forall now p,
        stream_get_count (stream_add_packet now s p) <> 1 ->
        stream_time (stream_add_packet now s p) = stream_time s).
Proof.
  split; [|split].
  - induction calls as [|c l IH] using rev_ind.
    + repeat split.
    + rewrite add_packets_snoc.
      destruct (add_packet_frame_step (fst c) (add_packets s l) (snd c))
        as (-> & -> & -> & -> & -> & -> & ->).
      exact IH.
  - intros ty m md. split.
    + clear s. induction calls as [|c l IH] using rev_ind; [reflexivity|].
      rewrite add_packets_snoc. exact IH.
    + apply add_packets_count_fresh.
  - intros now p Hne.
    unfold Stream.stream_time, Stream.stream_get_count in *.
    cbn [Stream.stream_add_packet firsttv pkt_count] in *.
    apply Z.eqb_neq in Hne. now rewrite Hne.
Qed.

(** *** Activity *)

Lemma add_packets_clock_ok (s : Stream) (calls : list (Z * Packet)) :
  clock_ok (lasttm _ _ s) ->
  Forall (fun c => clock_ok (fst c)) calls ->
  clock_ok (lasttm _ _ (add_packets s calls)).
Proof.
  intros Hs Hall. induction calls as [|c l IH] using rev_ind; [exact Hs|].
  rewrite add_packets_snoc. cbn [Stream.stream_add_packet lasttm].
  apply Forall_app in Hall. destruct Hall as [_ Hc].
  now inversion Hc.
Qed.

Lemma stream_new_clock_ok ty (m : option Message) md :
  clock_ok (lasttm _ _ (stream_new ty m md)).
Proof. unfold clock_ok, gint64_half. cbn. lia. Qed.

(** Claim C8: with clock readings in the range of the monotonic clock,
    [stream_is_active] answers true exactly when the time elapsed since the
    last-activity time is at most [STREAM_INACTIVE_SECS]; it returns a
    boolean and no stream, so nothing is changed; for a non-negative
    threshold it is true right after [stream_add_packet]; and without a
    further packet an answer true at a later reading implies true at every
    earlier one. *)
Theorem stream_is_active_spec (s : Stream) (now : Z) :
  clock_ok (lasttm _ _ s) ->
  clock_ok now ->
  (stream_is_active now s = true <-> now - lasttm _ _ s <= STREAM_INACTIVE_SECS)
  /\ (0 <= STREAM_INACTIVE_SECS ->
      forall p, stream_is_active now (stream_add_packet now s p) = true)
  /\ (forall later,
        clock_ok later -> now <= later ->
        stream_is_active later s = true -> stream_is_active now s = true).
Proof.
  intros Hs Hnow. unfold Stream.stream_is_active.
  split; [|split].
  - rewrite clock_diff_exact by assumption. apply Z.leb_le.
  - intros Hthr p. cbn [Stream.stream_add_packet lasttm].
    rewrite Z.sub_diag. apply Z.leb_le.
    rewrite wrap_gint64_small; [assumption|unfold gint64_half; lia].
  - intros later Hlater Hle.
    rewrite !clock_diff_exact by assumption.
    rewrite !Z.leb_le. lia.
Qed.

(** *** Format resolution *)

Lemma format_scan_suffix (pre l : list PacketSdpFormat) (code : Z) :
  format_scan (pre ++ l) code (List.length pre) (List.length l) =
  match find (matches code) l with
  | Some f => alias f
  | None => None
  end.
Proof.
  revert pre. induction l as [|f l IH]; intros pre; [reflexivity|].
  cbn [List.length format_scan find].
  rewrite nth_error_app2, Nat.sub_diag by lia.
  cbn [nth_error]. unfold matches at 1.
  destruct (id f =? code); [reflexivity|].
  specialize (IH (pre ++ [f])).
  rewrite <- app_assoc, length_app, Nat.add_comm in IH.
  exact IH.
Qed.

Lemma format_scan_find (l : list PacketSdpFormat) (code : Z) :
  format_scan l code 0 (List.length l) =
  match find (matches code) l with
  | Some f => alias f
  | None => None
  end.
Proof. exact (format_scan_suffix [] l code). Qed.

Lemma find_first_match (code : Z) (pre post : list PacketSdpFormat) f :
  Forall (fun g => id g <> code) pre ->
  id f = code ->
  find (matches code) (pre ++ f :: post) = Some f.
Proof.
  intros Hpre Hf. induction Hpre as [|g pre Hg _ IH]; cbn [app find].
  - unfold matches. now rewrite (proj2 (Z.eqb_eq _ _) Hf).
  - unfold matches at 1. now rewrite (proj2 (Z.eqb_neq _ _) Hg).
Qed.

Lemma find_no_match (code : Z) (l : list PacketSdpFormat) :
  Forall (fun g => id g <> code) l ->
  find (matches code) l = None.
Proof.
  intros Hl. induction Hl as [|g l Hg _ IH]; [reflexivity|].
  cbn [find]. unfold matches at 1. now rewrite (proj2 (Z.eqb_neq _ _) Hg).
Qed.

(** Claim C2, as the code has it: for every stream that has a media
    descriptor, a format code found in the static table resolves to the
    static name whatever the dynamic list holds; a code not in the static
    table resolves to the alias of the first dynamic entry with that id; and
    a code in neither resolves to NULL. *)
Theorem stream_get_format_order (s : Stream) (md : PacketSdpMedia) :
  media _ _ s = Some md ->
  (forall encoding,
      packet_rtp_standard_codec (fmtcode _ _ s) = Some encoding ->
      stream_get_format (Some s) = format encoding)
  /\ (packet_rtp_standard_codec (fmtcode _ _ s) = None ->
      forall pre f post,
        formats md = pre ++ f :: post ->
        Forall (fun g => id g <> fmtcode _ _ s) pre ->
        id f = fmtcode _ _ s ->
        stream_get_format (Some s) = alias f)
  /\ (packet_rtp_standard_codec (fmtcode _ _ s) = None ->
      Forall (fun g => id g <> fmtcode _ _ s) (formats md) ->
      stream_get_format (Some s) = None).
Proof.
  intros Hmd. unfold Stream.stream_get_format. rewrite Hmd.
  split; [|split].
  - intros encoding ->. reflexivity.
  - intros -> pre f post Hfs Hpre Hf.
    rewrite format_scan_find, Hfs, (find_first_match _ _ _ _ Hpre Hf).
    reflexivity.
  - intros -> Hall.
    now rewrite format_scan_find, (find_no_match _ _ Hall).
Qed.

(** Claim C10: for a NULL stream and for every stream whose media
    back-reference is NULL the resolved format is NULL, whatever the static
    table answers for the stream's format code. *)
Theorem stream_get_format_without_media (sp : option Stream) :
  without_media sp -> stream_get_format sp = None.
Proof.
  destruct sp as [s|]; cbn; [|reflexivity].
  intros ->. reflexivity.
Qed.

(** *** Sequences of calls *)

Local Abbreviation call := (call Message Packet packet_time).
Local Abbreviation run := (run Message Packet packet_time).
Local Abbreviation added := (added Packet).
Local Abbreviation accounting := (accounting Message Packet).
Local Abbreviation stream_set_src := (stream_set_src Message Packet).
Local Abbreviation stream_set_dst := (stream_set_dst Message Packet).
Local Abbreviation stream_set_data := (stream_set_data Message Packet).
Local Abbreviation stream_set_format := (stream_set_format Message Packet).

Lemma run_cons (s : Stream) c cs : run s (c :: cs) = run (call s c) cs.
Proof. reflexivity. Qed.

Lemma run_snoc (s : Stream) cs c : run s (cs ++ [c]) = call (run s cs) c.
Proof. unfold Stream.run. now rewrite fold_left_app. Qed.

Lemma wrap_guint8_range (z : Z) : 0 <= wrap_guint8 z < 256.
Proof. unfold wrap_guint8. apply Z.mod_pos_bound. lia. Qed.

(** One call: what it keeps, and the ranges it keeps. *)
Lemma call_keeps (s : Stream) (c : StreamCall Packet) :
  packets _ _ (call s c) = packets _ _ s
  /\ type _ _ (call s c) = type _ _ s
  /\ msg _ _ (call s c) = msg _ _ s
  /\ media _ _ (call s c) = media _ _ s
  /\ (0 <= fmtcode _ _ s < 256 -> 0 <= fmtcode _ _ (call s c) < 256)
  /\ (0 <= pkt_count _ _ s < guint_modulus ->
      0 <= pkt_count _ _ (call s c) < guint_modulus).
Proof.
  destruct c; cbn; repeat split; try tauto; try lia;
    try apply wrap_guint8_range; try apply wrap_guint_range.
Qed.

(** No sequence of calls on a stream made by [stream_new] puts a packet in
    its container or changes its type or back-references, and the format
    code and the counter stay within their 8 and 32 bits. *)
Theorem run_invariant ty (m : option Message) md (cs : list (StreamCall Packet)) :
  packets _ _ (run (stream_new ty m md) cs) = []
  /\ type _ _ (run (stream_new ty m md) cs) = ty
  /\ msg _ _ (run (stream_new ty m md) cs) = m
  /\ media _ _ (run (stream_new ty m md) cs) = md
  /\ 0 <= fmtcode _ _ (run (stream_new ty m md) cs) < 256
  /\ 0 <= pkt_count _ _ (run (stream_new ty m md) cs) < guint_modulus.
Proof.
  induction cs as [|c cs IH] using rev_ind.
  - cbn. unfold guint_modulus. repeat split; lia.
  - rewrite run_snoc.
    destruct (call_keeps (run (stream_new ty m md) cs) c)
      as (-> & -> & -> & -> & Hf & Hc).
    destruct IH as (H1 & H2 & H3 & H4 & H5 & H6).
    repeat split; try assumption; try apply Hf; try apply Hc; assumption.
Qed.

Lemma add_packet_accounting now (s1 s2 : Stream) p :
  accounting s1 = accounting s2 ->
  accounting (stream_add_packet now s1 p)
  = accounting (stream_add_packet now s2 p).
Proof.
  unfold Stream.accounting. intros H. inversion H as [[Hc Hf Hl Hd]].
  cbn [Stream.stream_add_packet pkt_count firsttv lasttm changed].
  now rewrite Hc, Hf.
Qed.

Lemma add_packets_accounting (s1 s2 : Stream) (l : list (Z * Packet)) :
  accounting s1 = accounting s2 ->
  accounting (add_packets s1 l) = accounting (add_packets s2 l).
Proof.
  revert s1 s2. induction l as [|c l IH]; intros s1 s2 H; [exact H|].
  rewrite !add_packets_cons. apply IH. now apply add_packet_accounting.
Qed.

Lemma run_accounting_added (s : Stream) (cs : list (StreamCall Packet)) :
  accounting (run s cs) = accounting (add_packets s (added cs)).
Proof.
  revert s. induction cs as [|c cs IH]; intros s; [reflexivity|].
  rewrite run_cons, IH.
  destruct c as [a|a|a b|fmt|now p]; cbn [Stream.added flat_map app];
    try (apply add_packets_accounting; reflexivity).
  reflexivity.
Qed.

(** The setters are transparent for the packet accounting: counter,
    first-packet time, last-activity time and changed flag after any
    sequence of calls are those after its [stream_add_packet] calls
    alone. *)
Theorem run_accounting (s : Stream) (cs : list (StreamCall Packet)) :
  pkt_count _ _ (run s cs) = pkt_count _ _ (add_packets s (added cs))
  /\ firsttv _ _ (run s cs) = firsttv _ _ (add_packets s (added cs))
  /\ lasttm _ _ (run s cs) = lasttm _ _ (add_packets s (added cs))
  /\ changed _ _ (run s cs) = changed _ _ (add_packets s (added cs)).
Proof.
  pose proof (run_accounting_added s cs) as H.
  unfold Stream.accounting in H.
  pose proof (f_equal (fun a => fst (fst (fst a))) H) as H1.
  pose proof (f_equal (fun a => snd (fst (fst a))) H) as H2.
  pose proof (f_equal (fun a => snd (fst a)) H) as H3.
  pose proof (f_equal (fun a => snd a) H) as H4.
  cbn [fst snd] in H1, H2, H3, H4.
  now repeat split.
Qed.

(** A stream made by [stream_new] and taken through any sequence of calls:
    the count is the number of [stream_add_packet] calls modulo 2^32, the
    changed flag is set exactly when there was one, and without one the
    first-packet time and the last-activity time are still zero. *)
Theorem fresh_run_summary ty (m : option Message) md
        (cs : list (StreamCall Packet)) :
  stream_get_count (run (stream_new ty m md) cs)
  = wrap_guint (Z.of_nat (List.length (added cs)))
  /\ changed _ _ (run (stream_new ty m md) cs)
     = match added cs with [] => false | _ :: _ => true end
  /\ (added cs = [] ->
      stream_time (run (stream_new ty m md) cs) = zero_timeval
      /\ lasttm _ _ (run (stream_new ty m md) cs) = 0)
  /\ (forall before now p,
        added cs = before ++ [(now, p)] ->
        lasttm _ _ (run (stream_new ty m md) cs) = now).
Proof.
  pose proof (run_accounting_added (stream_new ty m md) cs) as H.
  unfold Stream.accounting in H. inversion H as [[Hc Hf Hl Hd]].
  unfold Stream.stream_get_count, Stream.stream_time.
  rewrite Hc, Hf, Hl, Hd.
  split; [|split; [|split]].
  - apply (add_packets_count_fresh ty m md).
  - destruct (added cs) as [|c l] using rev_ind; [reflexivity|].
    rewrite add_packets_snoc. cbn [Stream.stream_add_packet changed].
    now destruct l.
  - intros ->. split; reflexivity.
  - intros before now p ->. now rewrite add_packets_snoc.
Qed.

(** *** Endpoints and format code *)

(** [stream_set_data] is [stream_set_src] followed by [stream_set_dst], in
    either order, and of two calls of a setter the later one decides. *)
Theorem stream_set_data_composes (s : Stream) (a b a' b' : Address) :
  stream_set_data s a b = stream_set_dst (stream_set_src s a) b
  /\ stream_set_data s a b = stream_set_src (stream_set_dst s b) a
  /\ stream_set_data (stream_set_data s a b) a' b' = stream_set_data s a' b'
  /\ src _ _ (stream_set_dst (stream_set_src s a) b) = a
  /\ dst _ _ (stream_set_src (stream_set_dst s b) a) = b.
Proof. repeat split. Qed.


Lemma run_keeps_format (s : Stream) (cs : list (StreamCall Packet)) :
  forallb (fun c => negb (sets_format Packet c)) cs = true ->
  media _ _ (run s cs) = media _ _ s
  /\ fmtcode _ _ (run s cs) = fmtcode _ _ s.
Proof.
  revert s. induction cs as [|c cs IH]; intros s H; [split; reflexivity|].
  cbn [forallb] in H. apply andb_prop in H. destruct H as [Hc Hcs].
  rewrite run_cons. destruct (IH (call s c) Hcs) as [-> ->].
  destruct c; cbn in Hc; try discriminate; split; reflexivity.
Qed.

(** Packets and endpoint changes do not move the resolved format: through
    any sequence of calls without [stream_set_format] it stays what it
    was. *)
Theorem stream_get_format_stable (s : Stream) (cs : list (StreamCall Packet)) :
  forallb (fun c => negb (sets_format Packet c)) cs = true ->
  stream_get_format (Some (run s cs)) = stream_get_format (Some s).
Proof.
  intros H. destruct (run_keeps_format s cs H) as [Hm Hf].
  unfold Stream.stream_get_format. now rewrite Hm, Hf.
Qed.

(** *** Format resolution as a search *)

(** The index loop of [stream_get_format] is a search for the first entry
    with the stream's code: the whole function, without the loop. *)
Theorem stream_get_format_first_match (sp : option Stream) :
  stream_get_format sp =
  match sp with
  | None => None
  | Some s =>
      match media _ _ s with
      | None => None
      | Some md =>
          match packet_rtp_standard_codec (fmtcode _ _ s) with
          | Some encoding => format encoding
          | None =>
              match find (matches (fmtcode _ _ s)) (formats md) with
              | Some f => alias f
              | None => None
              end
          end
      end
  end.
Proof.
  destruct sp as [s|]; [|reflexivity].
  unfold Stream.stream_get_format.
  destruct (media _ _ s) as [md|]; [|reflexivity].
  destruct (packet_rtp_standard_codec (fmtcode _ _ s)); [reflexivity|].
  apply format_scan_find.
Qed.

(** A name that [stream_get_format] returns comes from one of the two
    tables: it is the static name of the stream's code, or, the code not
    being static, the alias of a dynamic entry of the stream's media with
    that code as id. *)
Theorem stream_get_format_sound (sp : option Stream) (n : string) :
  stream_get_format sp = Some n ->
  exists s md,
    sp = Some s /\ media _ _ s = Some md
    /\ ((exists encoding,
           packet_rtp_standard_codec (fmtcode _ _ s) = Some encoding
           /\ format encoding = Some n)
        \/ (packet_rtp_standard_codec (fmtcode _ _ s) = None
            /\ exists f, In f (formats md)
                         /\ id f = fmtcode _ _ s /\ alias f = Some n)).
Proof.
  destruct sp as [s|]; [|discriminate].
  unfold Stream.stream_get_format.
  destruct (media _ _ s) as [md|] eqn:Hm; [|discriminate].
  destruct (packet_rtp_standard_codec (fmtcode _ _ s)) as [e|] eqn:He.
  - intros Hn. exists s, md. repeat split; try assumption.
    left. exists e. now split.
  - rewrite format_scan_find.
    destruct (find (matches (fmtcode _ _ s)) (formats md)) as [f|] eqn:Hf;
      [|discriminate].
    intros Hn. exists s, md. repeat split; try assumption.
    right. split; [exact He|]. exists f.
    apply find_some in Hf. destruct Hf as [Hin Hid].
    unfold matches in Hid. apply Z.eqb_eq in Hid. now repeat split.
Qed.

(** *** Activity and the last packet *)

(** Whether a stream counts as active depends on its latest packet alone:
    after a run that ends with a call at clock reading [t], the answer at
    [now] is true exactly when [now - t] is within the threshold. *)
Theorem stream_is_active_last_packet
        (s : Stream) (l : list (Z * Packet)) (t : Z) (p : Packet) (now : Z) :
  clock_ok t -> clock_ok now ->
  (stream_is_active now (add_packets s (l ++ [(t, p)])) = true
   <-> now - t <= STREAM_INACTIVE_SECS).
Proof.
  intros Ht Hnow. rewrite add_packets_snoc.
  unfold Stream.stream_is_active.
  cbn [Stream.stream_add_packet lasttm fst].
  rewrite clock_diff_exact by assumption. apply Z.leb_le.
Qed.

(** A stream that never received a packet has last-activity time zero: it
    counts as active exactly while the monotonic clock itself is within the
    threshold, whatever setters were called on it. *)
Theorem stream_is_active_never_fed ty (m : option Message) md
        (cs : list (StreamCall Packet)) (now : Z) :
  added cs = [] -> clock_ok now ->
  (stream_is_active now (run (stream_new ty m md) cs) = true
   <-> now <= STREAM_INACTIVE_SECS).
Proof.
  intros Hnone Hnow.
  pose proof (run_accounting_added (stream_new ty m md) cs) as H.
  rewrite Hnone in H. unfold Stream.accounting in H.
  pose proof (f_equal (fun a => snd (fst a)) H) as Hl. cbn [fst snd] in Hl.
  change (lasttm _ _ (add_packets (stream_new ty m md) [])) with 0 in Hl.
  unfold Stream.stream_is_active. rewrite Hl.
  rewrite Z.sub_0_r, wrap_gint64_small by (unfold clock_ok in Hnow; lia).
  apply Z.leb_le.
Qed.

End WithCollaborators.

(** *** The properties on the sample instances *)

Lemma add_packets_count_and_first_time_witness :
  Z.of_nat (List.length [(10, 100); (11, 200); (12, 300)]) < guint_modulus
  /\ stream_get_count _ _
       (add_packets _ _ Sample.packet_time (Sample.fresh None)
                    [(10, 100); (11, 200); (12, 300)]) = 3
  /\ stream_time _ _
       (add_packets _ _ Sample.packet_time (Sample.fresh None)
                    [(10, 100); (11, 200); (12, 300)])
     = Sample.packet_time 100.
Proof.
  assert (Hlen : Z.of_nat (List.length [(10, 100); (11, 200); (12, 300)])
                 < guint_modulus) by (vm_compute; reflexivity).
  split; [exact Hlen|].
  destruct (add_packets_count_and_first_time Sample.packet_time
              STREAM_RTP (None : option Sample.Message) None
              [(10, 100); (11, 200); (12, 300)] Hlen) as (Hc & Hf & _).
  split; [exact Hc|].
  exact (Hf 10 100 [(11, 200); (12, 300)] eq_refl).
Defined.

Lemma guint_many_calls_length :
  Z.of_nat (List.length Sample.guint_many_calls) = guint_modulus.
Proof.
  unfold Sample.guint_many_calls.
  rewrite repeat_length, Z2Nat.id; [reflexivity|].
  unfold guint_modulus. lia.
Qed.

Lemma guint_many_calls_count :
  stream_get_count _ _
    (add_packets _ _ Sample.packet_time (Sample.fresh None)
                 Sample.guint_many_calls) = 0.
Proof.
  unfold Sample.fresh.
  rewrite add_packets_count_fresh, guint_many_calls_length.
  reflexivity.
Qed.

(** Claim C3 as stated fails: after 2^32 calls on a fresh stream the count
    returned is 0, not 2^32. *)
Lemma count_wraps_after_guint_many_calls :
  Z.of_nat (List.length Sample.guint_many_calls) = 4294967296
  /\ stream_get_count _ _
       (add_packets _ _ Sample.packet_time (Sample.fresh None)
                    Sample.guint_many_calls) = 0.
Proof.
  split; [exact guint_many_calls_length|exact guint_many_calls_count].
Qed.

Lemma guint_many_calls_first :
  Sample.guint_many_calls =
  (5, 7) :: repeat (5, 7) (Z.to_nat (guint_modulus - 1)).
Proof.
  unfold Sample.guint_many_calls.
  replace guint_modulus with (Z.succ (guint_modulus - 1)) at 1 by lia.
  rewrite Z2Nat.inj_succ by (unfold guint_modulus; lia).
  reflexivity.
Qed.

Lemma guint_many_calls_first_time :
  stream_time _ _
    (add_packets _ _ Sample.packet_time (Sample.fresh None)
                 Sample.guint_many_calls)
  = Sample.packet_time 7.
Proof.
  rewrite guint_many_calls_first, add_packets_cons.
  unfold Stream.stream_time.
  rewrite add_packets_firsttv_kept.
  - reflexivity.
  - cbn. lia.
  - rewrite repeat_length, Z2Nat.id by (unfold guint_modulus; lia).
    replace (pkt_count _ _ _) with 1 by reflexivity.
    lia.
Qed.

(** Claim C9 as stated fails: on a stream that has taken 2^32 calls, call
    number 2^32 + 1, which is not the first one, replaces the first-packet
    time. *)
Lemma first_time_overwritten_after_wrap :
  stream_time _ _
    (add_packets _ _ Sample.packet_time (Sample.fresh None)
                 Sample.guint_many_calls)
  = Sample.packet_time 7
  /\ stream_time _ _
       (stream_add_packet _ _ Sample.packet_time 6
          (add_packets _ _ Sample.packet_time (Sample.fresh None)
                       Sample.guint_many_calls)
          9)
     = Sample.packet_time 9
  /\ Sample.packet_time 9 <> Sample.packet_time 7.
Proof.
  split; [exact guint_many_calls_first_time|]. split.
  - apply add_packet_records_first_time. exact guint_many_calls_count.
  - discriminate.
Qed.

Lemma add_packets_frame_witness :
  stream_get_count _ _
    (stream_add_packet _ _ Sample.packet_time 11
       (stream_add_packet _ _ Sample.packet_time 10 (Sample.fresh None) 100)
       200) <> 1
  /\ stream_time _ _
       (stream_add_packet _ _ Sample.packet_time 11
          (stream_add_packet _ _ Sample.packet_time 10 (Sample.fresh None) 100)
          200)
     = Sample.packet_time 100.
Proof.
  assert (Hne : stream_get_count _ _
    (stream_add_packet _ _ Sample.packet_time 11
       (stream_add_packet _ _ Sample.packet_time 10 (Sample.fresh None) 100)
       200) <> 1) by (vm_compute; discriminate).
  split; [exact Hne|].
  destruct (add_packets_frame Sample.packet_time
              (stream_add_packet _ _ Sample.packet_time 10
                                 (Sample.fresh None) 100) [])
    as (_ & _ & Hkeep).
  exact (Hkeep 11 200 Hne).
Defined.

Lemma stream_is_active_spec_witness :
  clock_ok 1000
  /\ clock_ok 1002
  /\ 0 <= Sample.inactive_secs
  /\ stream_is_active _ _ Sample.inactive_secs 1002
       (stream_add_packet _ _ Sample.packet_time 1000 (Sample.fresh None) 7)
     = true
  /\ stream_is_active _ _ Sample.inactive_secs 1004
       (stream_add_packet _ _ Sample.packet_time 1000 (Sample.fresh None) 7)
     = false
  /\ stream_is_active _ _ Sample.inactive_secs 1000
       (stream_add_packet _ _ Sample.packet_time 1000 (Sample.fresh None) 7)
     = true.
Proof.
  assert (H0 : clock_ok 1000) by (unfold clock_ok, gint64_half; lia).
  assert (H2 : clock_ok 1002) by (unfold clock_ok, gint64_half; lia).
  assert (Ht : 0 <= Sample.inactive_secs) by (unfold Sample.inactive_secs; lia).
  split; [exact H0|]. split; [exact H2|]. split; [exact Ht|].
  destruct (stream_is_active_spec Sample.packet_time Sample.inactive_secs
              (stream_add_packet _ _ Sample.packet_time 1000
                                 (Sample.fresh None) 7) 1002 H0 H2)
    as (Hiff & _ & _).
  split; [apply Hiff; vm_compute; discriminate|].
  split; [reflexivity|].
  destruct (stream_is_active_spec Sample.packet_time Sample.inactive_secs
              (Sample.fresh None) 1000
              (stream_new_clock_ok STREAM_RTP None None) H0)
    as (_ & Hafter & _).
  exact (Hafter Ht 7).
Defined.

(** Claim C2 as stated fails: code 0 is in the static table, yet a stream
    without media descriptor resolves it to NULL, not to the static name. *)
Lemma static_code_unresolved_without_media :
  Sample.standard_codec (fmtcode _ _ (Sample.pcmu_stream None)) = Some Sample.pcmu
  /\ format Sample.pcmu = Some "PCMU/8000"%string
  /\ stream_get_format _ _ Sample.standard_codec (Some (Sample.pcmu_stream None))
     = None.
Proof. repeat split. Qed.

Lemma stream_get_format_order_witness :
  media _ _ (Sample.pcmu_stream (Some Sample.sdp_media)) = Some Sample.sdp_media
  /\ stream_get_format _ _ Sample.standard_codec
       (Some (Sample.pcmu_stream (Some Sample.sdp_media)))
     = Some "PCMU/8000"%string
  /\ stream_get_format _ _ Sample.standard_codec
       (Some (Sample.opus_stream (Some Sample.sdp_media)))
     = Some "opus"%string.
Proof.
  split; [reflexivity|]. split.
  - destruct (stream_get_format_order Sample.standard_codec
                (Sample.pcmu_stream (Some Sample.sdp_media)) Sample.sdp_media eq_refl)
      as (Hstatic & _ & _).
    exact (Hstatic Sample.pcmu eq_refl).
  - destruct (stream_get_format_order Sample.standard_codec
                (Sample.opus_stream (Some Sample.sdp_media)) Sample.sdp_media eq_refl)
      as (_ & Hdyn & _).
    refine (Hdyn eq_refl [Sample.shadow_pcmu] Sample.opus
                 [Sample.telephone_event] eq_refl _ eq_refl).
    constructor; [vm_compute; discriminate|constructor].
Defined.

Lemma stream_get_format_without_media_witness :
  without_media _ _ (Some (Sample.pcmu_stream None))
  /\ Sample.standard_codec (fmtcode _ _ (Sample.pcmu_stream None)) = Some Sample.pcmu
  /\ stream_get_format _ _ Sample.standard_codec (Some (Sample.pcmu_stream None))
     = None.
Proof.
  assert (H : without_media _ _ (Some (Sample.pcmu_stream None))) by reflexivity.
  split; [exact H|]. split; [reflexivity|].
  exact (stream_get_format_without_media Sample.standard_codec
           (Some (Sample.pcmu_stream None)) H).
Defined.

Lemma fresh_run_summary_witness :
  added _ Sample.idle_calls = []
  /\ stream_time _ _
       (run _ _ Sample.packet_time (Sample.fresh None) Sample.idle_calls)
     = zero_timeval
  /\ added _ Sample.busy_calls = [(10, 100)] ++ [(12, 200)]
  /\ lasttm _ _
       (run _ _ Sample.packet_time (Sample.fresh None) Sample.busy_calls)
     = 12.
Proof.
  assert (H0 : added _ Sample.idle_calls = []) by reflexivity.
  assert (H1 : added _ Sample.busy_calls = [(10, 100)] ++ [(12, 200)])
    by reflexivity.
  split; [exact H0|]. split.
  - destruct (fresh_run_summary Sample.packet_time STREAM_RTP
                (None : option Sample.Message) None Sample.idle_calls)
      as (_ & _ & Hnone & _).
    exact (proj1 (Hnone H0)).
  - split; [exact H1|].
    destruct (fresh_run_summary Sample.packet_time STREAM_RTP
                (None : option Sample.Message) None Sample.busy_calls)
      as (_ & _ & _ & Hlast).
    exact (Hlast [(10, 100)] 12 200 H1).
Defined.

Lemma stream_get_format_stable_witness :
  forallb (fun c => negb (sets_format Sample.Packet c)) Sample.busy_calls
  = true
  /\ stream_get_format _ _ Sample.standard_codec
       (Some (run _ _ Sample.packet_time
                  (Sample.opus_stream (Some Sample.sdp_media))
                  Sample.busy_calls))
     = Some "opus"%string.
Proof.
  assert (H : forallb (fun c => negb (sets_format Sample.Packet c))
                      Sample.busy_calls = true) by reflexivity.
  split; [exact H|].
  exact (stream_get_format_stable Sample.packet_time Sample.standard_codec
           (Sample.opus_stream (Some Sample.sdp_media)) Sample.busy_calls H).
Defined.

Lemma stream_get_format_sound_witness :
  stream_get_format _ _ Sample.standard_codec
    (Some (Sample.opus_stream (Some Sample.sdp_media))) = Some "opus"%string
  /\ exists s md,
       Some (Sample.opus_stream (Some Sample.sdp_media)) = Some s
       /\ media _ _ s = Some md
       /\ ((exists encoding,
              Sample.standard_codec (fmtcode _ _ s) = Some encoding
              /\ format encoding = Some "opus"%string)
           \/ (Sample.standard_codec (fmtcode _ _ s) = None
               /\ exists f, In f (formats md)
                            /\ id f = fmtcode _ _ s
                            /\ alias f = Some "opus"%string)).
Proof.
  assert (H : stream_get_format _ _ Sample.standard_codec
                (Some (Sample.opus_stream (Some Sample.sdp_media)))
              = Some "opus"%string) by reflexivity.
  split; [exact H|].
  exact (stream_get_format_sound Sample.standard_codec
           (Some (Sample.opus_stream (Some Sample.sdp_media)))
           "opus"%string H).
Defined.

Lemma stream_is_active_last_packet_witness :
  clock_ok 1000 /\ clock_ok 1003
  /\ 1003 - 1000 <= Sample.inactive_secs
  /\ stream_is_active _ _ Sample.inactive_secs 1003
       (add_packets _ _ Sample.packet_time (Sample.fresh None)
                    ([(5, 1); (900, 2)] ++ [(1000, 3)]))
     = true.
Proof.
  assert (H0 : clock_ok 1000) by (unfold clock_ok, gint64_half; lia).
  assert (H3 : clock_ok 1003) by (unfold clock_ok, gint64_half; lia).
  assert (Hle : 1003 - 1000 <= Sample.inactive_secs)
    by (unfold Sample.inactive_secs; lia).
  split; [exact H0|]. split; [exact H3|]. split; [exact Hle|].
  exact (proj2 (stream_is_active_last_packet Sample.packet_time
                  Sample.inactive_secs (Sample.fresh None)
                  [(5, 1); (900, 2)] 1000 3 1003 H0 H3) Hle).
Defined.

Lemma stream_is_active_never_fed_witness :
  added _ Sample.idle_calls = [] /\ clock_ok 2 /\ 2 <= Sample.inactive_secs
  /\ stream_is_active _ _ Sample.inactive_secs 2
       (run _ _ Sample.packet_time (Sample.fresh None) Sample.idle_calls)
     = true.
Proof.
  assert (H0 : added _ Sample.idle_calls = []) by reflexivity.
  assert (H2 : clock_ok 2) by (unfold clock_ok, gint64_half; lia).
  assert (Hle : 2 <= Sample.inactive_secs)
    by (unfold Sample.inactive_secs; lia).
  split; [exact H0|]. split; [exact H2|]. split; [exact Hle|].
  exact (proj2 (stream_is_active_never_fed Sample.packet_time
                  Sample.inactive_secs STREAM_RTP
                  (None : option Sample.Message) None
                  Sample.idle_calls 2 H0 H2) Hle).
Defined.

End StreamFacts.

(** ** The capture manager *)

Module CaptureFacts.
Import Capture.

Section WithWorld.

Context {World Packet GSource GMainLoop GThread : Type}.
Variable g_source_is_destroyed : GSource -> World -> bool.
Variable g_main_loop_quit : GMainLoop -> World -> World.
Variable g_thread_join : GThread -> World -> World.

Local Abbreviation CaptureInput := (CaptureInput World GSource).
Local Abbreviation CaptureOutput := (CaptureOutput World Packet).
Local Abbreviation CaptureManager :=
  (CaptureManager World Packet GSource GMainLoop GThread).
Local Abbreviation State := (State World Packet GSource GMainLoop GThread).
Local Abbreviation Event := (Event World Packet GSource GMainLoop GThread).
Local Abbreviation mkState := (mkState World Packet GSource GMainLoop GThread).
Local Abbreviation calls := (calls World Packet GSource GMainLoop GThread).
Local Abbreviation world := (world World Packet GSource GMainLoop GThread).
Local Abbreviation EvClose := (EvClose World Packet GSource GMainLoop GThread).
Local Abbreviation EvWrite := (EvWrite World Packet GSource GMainLoop GThread).
Local Abbreviation EvFilter := (EvFilter World Packet GSource GMainLoop GThread).
Local Abbreviation EvLoopQuit :=
  (EvLoopQuit World Packet GSource GMainLoop GThread).
Local Abbreviation EvThreadJoin :=
  (EvThreadJoin World Packet GSource GMainLoop GThread).
Local Abbreviation stop_outputs :=
  (stop_outputs World Packet GSource GMainLoop GThread).
Local Abbreviation output_packet_from :=
  (output_packet_from World Packet GSource GMainLoop GThread).
Local Abbreviation set_filter_from :=
  (set_filter_from World Packet GSource GMainLoop GThread).
Local Abbreviation filter_accepted :=
  (filter_accepted World Packet GSource GMainLoop GThread).
Local Abbreviation capture_manager_stop :=
  (capture_manager_stop World Packet GSource GMainLoop GThread
                        g_main_loop_quit g_thread_join).
Local Abbreviation capture_manager_output_packet :=
  (capture_manager_output_packet World Packet GSource GMainLoop GThread).
Local Abbreviation capture_manager_set_filter :=
  (capture_manager_set_filter World Packet GSource GMainLoop GThread).
Local Abbreviation capture_manager_filter :=
  (capture_manager_filter World Packet GSource GMainLoop GThread).
Local Abbreviation capture_is_online :=
  (capture_is_online World Packet GSource GMainLoop GThread).
Local Abbreviation capture_status_desc :=
  (capture_status_desc World Packet GSource GMainLoop GThread
                       g_source_is_destroyed).
Local Abbreviation count_inputs :=
  (count_inputs World GSource g_source_is_destroyed).
Local Abbreviation still_loading :=
  (still_loading World GSource g_source_is_destroyed).

(** *** Registration order *)

Lemma add_outputs_in_order (m : CaptureManager) (l : list CaptureOutput) :
  outputs _ _ _ _ _
    (fold_left (capture_manager_add_output World Packet GSource GMainLoop
                                           GThread) l m)
  = outputs _ _ _ _ _ m ++ l.
Proof.
  revert m. induction l as [|o l IH]; intros m; cbn [fold_left].
  - now rewrite app_nil_r.
  - rewrite IH. cbn [Capture.capture_manager_add_output outputs].
    now rewrite <- app_assoc.
Qed.

(** *** Closing and writing *)

Lemma stop_outputs_run (l : list CaptureOutput) (st : State) :
  stop_outputs l st =
  (tt, mkState (calls st ++ map EvClose (List.filter (has_close _ _) l))
               (closed_world _ _ l (world st))).
Proof.
  revert st. induction l as [|output next IH]; intros st.
  - cbn. rewrite app_nil_r. now destruct st.
  - cbn [Capture.stop_outputs List.filter closed_world fold_left].
    fold (closed_world World Packet).
    destruct (close _ _ output) as [cb|] eqn:Hc.
    + replace (has_close _ _ output) with true
        by (unfold has_close; now rewrite Hc).
      cbv [bind call_close act record]. cbn [Capture.calls Capture.world].
      rewrite IH. cbn [Capture.calls Capture.world map].
      now rewrite <- app_assoc.
    + replace (has_close _ _ output) with false
        by (unfold has_close; now rewrite Hc).
      apply IH.
Qed.

(** Claim C5: [capture_manager_stop] returns, having made exactly these
    calls and no others: the close operation of every output that has one,
    once each and in registration order, outputs without one being passed
    over; then [g_main_loop_quit]; then [g_thread_join]. *)
Theorem capture_manager_stop_calls (m : CaptureManager) (st : State) :
  capture_manager_stop m st =
  (tt,
   mkState
     (calls st
      ++ map EvClose (List.filter (has_close _ _) (outputs _ _ _ _ _ m))
      ++ [EvLoopQuit (loop _ _ _ _ _ m); EvThreadJoin (thread _ _ _ _ _ m)])
     (g_thread_join (thread _ _ _ _ _ m)
        (g_main_loop_quit (loop _ _ _ _ _ m)
           (closed_world _ _ (outputs _ _ _ _ _ m) (world st))))).
Proof.
  unfold Capture.capture_manager_stop, bind at 1.
  rewrite stop_outputs_run.
  cbv [bind act record]. cbn [Capture.calls Capture.world].
  now rewrite <- !app_assoc.
Qed.

Lemma output_packet_run (l : list CaptureOutput) (p : Packet) (st : State) :
  output_packet_from l p st =
  (tt, mkState (calls st
                ++ map (fun output => EvWrite output p)
                       (List.filter (has_write _ _) l))
               (written_world _ _ l p (world st))).
Proof.
  revert st. induction l as [|output next IH]; intros st.
  - cbn. rewrite app_nil_r. now destruct st.
  - cbn [Capture.output_packet_from List.filter written_world fold_left].
    fold (written_world World Packet).
    destruct (write _ _ output) as [cb|] eqn:Hw.
    + replace (has_write _ _ output) with true
        by (unfold has_write; now rewrite Hw).
      cbv [bind call_write act record]. cbn [Capture.calls Capture.world].
      rewrite IH. cbn [Capture.calls Capture.world map].
      now rewrite <- app_assoc.
    + replace (has_write _ _ output) with false
        by (unfold has_write; now rewrite Hw).
      apply IH.
Qed.

(** Claim C6: for every packet, [capture_manager_output_packet] makes
    exactly these calls: the write operation of every output that has one,
    on that packet, once per registered output and in registration order; an
    output without a write operation contributes nothing and stops
    nothing. *)
Theorem capture_manager_output_packet_calls
        (m : CaptureManager) (p : Packet) (st : State) :
  capture_manager_output_packet m p st =
  (tt,
   mkState
     (calls st
      ++ map (fun output => EvWrite output p)
             (List.filter (has_write _ _) (outputs _ _ _ _ _ m)))
     (written_world _ _ (outputs _ _ _ _ _ m) p (world st))).
Proof. apply output_packet_run. Qed.

(** *** Online or not *)

Lemma is_online_from_forall (l : list CaptureInput) :
  is_online_from _ _ l = true <->
  Forall (fun input => mode _ _ input <> CAPTURE_MODE_OFFLINE) l.
Proof.
  induction l as [|input next IH]; cbn [Capture.is_online_from].
  - split; [constructor|reflexivity].
  - destruct (mode _ _ input) eqn:Hm; cbn [is_offline].
    + rewrite IH. split.
      * intros H. constructor; [congruence|exact H].
      * intros H. now inversion H.
    + split; [discriminate|]. intros H. inversion H. congruence.
    + rewrite IH. split.
      * intros H. constructor; [congruence|exact H].
      * intros H. now inversion H.
Qed.

(** Claim C7: [capture_is_online] is true exactly when no registered input
    is in offline mode; so it is true without inputs and false as soon as
    one offline input is registered. *)
Theorem capture_is_online_iff (m : CaptureManager) :
  (capture_is_online m = true <->
   Forall (fun input => mode _ _ input <> CAPTURE_MODE_OFFLINE)
          (inputs _ _ _ _ _ m))
  /\ (inputs _ _ _ _ _ m = [] -> capture_is_online m = true)
  /\ (forall input,
        In input (inputs _ _ _ _ _ m) ->
        mode _ _ input = CAPTURE_MODE_OFFLINE ->
        capture_is_online m = false).
Proof.
  unfold Capture.capture_is_online. split; [|split].
  - apply is_online_from_forall.
  - intros ->. reflexivity.
  - intros input Hin Hmode.
    apply not_true_is_false. intros Hon.
    apply is_online_from_forall in Hon.
    rewrite Forall_forall in Hon. exact (Hon input Hin Hmode).
Qed.

(** *** Setting the filter *)

Lemma set_filter_from_accepts (m : CaptureManager) (l : list CaptureInput)
      (expr : option string) (st : State) (w' : World) :
  accepts_all _ _ expr l (world st) w' ->
  set_filter_from m l expr st =
  ((true, with_filter _ _ _ _ _ m expr),
   mkState (calls st
            ++ map (filter_accepted expr) (List.filter (has_filter _ _) l))
           w').
Proof.
  intros Hacc. remember (world st) as w eqn:Hw.
  revert st Hw.
  induction Hacc as [w|input next w w' Hf _ IH|input next cb w w1 w' Hf Hcb _ IH];
    intros st Hw; cbn [Capture.set_filter_from List.filter].
  - subst w. cbn. rewrite app_nil_r. now destruct st.
  - replace (has_filter _ _ input) with false
      by (unfold has_filter; now rewrite Hf).
    rewrite Hf. now apply IH.
  - replace (has_filter _ _ input) with true
      by (unfold has_filter; now rewrite Hf).
    rewrite Hf. cbv [bind call_filter ask record ret].
    rewrite <- Hw, Hcb. cbn [negb Capture.calls Capture.world].
    rewrite IH by reflexivity. cbn [Capture.calls map].
    now rewrite <- app_assoc.
Qed.

Lemma set_filter_from_rejects (m : CaptureManager)
      (l1 : list CaptureInput) (x : CaptureInput) (l2 : list CaptureInput)
      (expr : option string) (st : State) cb (w1 w2 : World) :
  accepts_all _ _ expr l1 (world st) w1 ->
  filter _ _ x = Some cb ->
  cb expr w1 = (false, w2) ->
  set_filter_from m (l1 ++ x :: l2) expr st =
  ((false, with_filter _ _ _ _ _ m None),
   mkState (calls st
            ++ map (filter_accepted expr) (List.filter (has_filter _ _) l1)
            ++ [EvFilter x expr false])
           w2).
Proof.
  intros Hacc Hx Hrej. remember (world st) as w eqn:Hw.
  revert st Hw.
  induction Hacc as [w|input next w w' Hf _ IH|input next c w w0 w' Hf Hcb _ IH];
    intros st Hw; cbn [app Capture.set_filter_from List.filter].
  - rewrite Hx. cbv [bind call_filter ask record ret].
    rewrite <- Hw, Hrej. reflexivity.
  - replace (has_filter _ _ input) with false
      by (unfold has_filter; now rewrite Hf).
    rewrite Hf. now apply IH.
  - replace (has_filter _ _ input) with true
      by (unfold has_filter; now rewrite Hf).
    rewrite Hf. cbv [bind call_filter ask record ret].
    rewrite <- Hw, Hcb. cbn [negb Capture.calls Capture.world].
    rewrite IH by first [assumption | reflexivity]. cbn [Capture.calls map].
    now rewrite <- !app_assoc.
Qed.

(** Either every input accepts, or there is a first one that rejects. *)
Lemma accepts_or_first_rejection (expr : option string)
      (l : list CaptureInput) (w : World) :
  (exists w', accepts_all _ _ expr l w w')
  \/ (exists l1 x l2 cb w1 w2,
        l = l1 ++ x :: l2
        /\ accepts_all _ _ expr l1 w w1
        /\ filter _ _ x = Some cb
        /\ cb expr w1 = (false, w2)).
Proof.
  revert w. induction l as [|input next IH]; intros w.
  - left. exists w. constructor.
  - destruct (filter _ _ input) as [cb|] eqn:Hf.
    + destruct (cb expr w) as [[|] w1] eqn:Hcb.
      * destruct (IH w1) as [[w' H]|(l1 & x & l2 & c & wa & wb & -> & Ha & Hx & Hr)].
        -- left. exists w'. eapply accepts_cons; eassumption.
        -- right. exists (input :: l1), x, l2, c, wa, wb.
           repeat split; try assumption.
           eapply accepts_cons; eassumption.
      * right. exists [], input, next, cb, w, w1.
        repeat split; try assumption. constructor.
    + destruct (IH w) as [[w' H]|(l1 & x & l2 & c & wa & wb & -> & Ha & Hx & Hr)].
      * left. exists w'. now apply accepts_skip.
      * right. exists (input :: l1), x, l2, c, wa, wb.
        repeat split; try assumption.
        now apply accepts_skip.
Qed.

(** Claim C1: when every input that has a filter operation accepts the
    expression (none registered included), [capture_manager_set_filter]
    answers TRUE and the manager's filter is the expression; when inputs
    [l1] accept and the next input [x] rejects, it answers FALSE with the
    manager's filter NULL, whatever the length of [l1], and no input after
    [x] has been called. *)
Theorem capture_manager_set_filter_spec
        (m : CaptureManager) (expr : option string) (st : State) :
  (forall w',
      accepts_all _ _ expr (inputs _ _ _ _ _ m) (world st) w' ->
      capture_manager_set_filter m expr st =
      ((true, with_filter _ _ _ _ _ m expr),
       mkState (calls st
                ++ map (filter_accepted expr)
                       (List.filter (has_filter _ _) (inputs _ _ _ _ _ m)))
               w'))
  /\ (forall l1 x l2 cb w1 w2,
        inputs _ _ _ _ _ m = l1 ++ x :: l2 ->
        accepts_all _ _ expr l1 (world st) w1 ->
        filter _ _ x = Some cb ->
        cb expr w1 = (false, w2) ->
        capture_manager_set_filter m expr st =
        ((false, with_filter _ _ _ _ _ m None),
         mkState (calls st
                  ++ map (filter_accepted expr)
                         (List.filter (has_filter _ _) l1)
                  ++ [EvFilter x expr false])
                 w2))
  /\ (inputs _ _ _ _ _ m = [] ->
      capture_manager_set_filter m expr st
      = ((true, with_filter _ _ _ _ _ m expr), st))
  /\ (forall f, capture_manager_filter (with_filter _ _ _ _ _ m f) = f).
Proof.
  unfold Capture.capture_manager_set_filter.
  split; [|split; [|split]].
  - intros w' Hacc. now apply set_filter_from_accepts.
  - intros l1 x l2 cb w1 w2 -> Hacc Hx Hrej.
    eapply set_filter_from_rejects; eassumption.
  - intros ->. reflexivity.
  - reflexivity.
Qed.

(** *** The status text *)

Lemma how_many_cons (f : CaptureInput -> bool) x l :
  how_many _ _ f (x :: l) = (if f x then 1 else 0) + how_many _ _ f l.
Proof.
  unfold how_many. cbn [List.filter]. destruct (f x); cbn [List.length]; lia.
Qed.

Lemma how_many_bounds (f : CaptureInput -> bool) l :
  0 <= how_many _ _ f l <= Z.of_nat (List.length l).
Proof.
  induction l as [|x l IH].
  - unfold how_many. cbn. lia.
  - rewrite how_many_cons. cbn [List.length]. destruct (f x); lia.
Qed.

Lemma incr_exact (n : Z) : 0 <= n -> n + 1 < 2 ^ 31 -> incr n = n + 1.
Proof. intros H0 H1. unfold incr. apply wrap_gint_small. lia. Qed.

Lemma count_inputs_exact (w : World) (l : list CaptureInput) (c : Counters) :
  0 <= online c -> 0 <= offline c -> 0 <= loading c ->
  online c + how_many _ _ (live _ _) l < 2 ^ 31 ->
  offline c + how_many _ _ (replaying _ _) l < 2 ^ 31 ->
  loading c + how_many _ _ (still_loading w) l < 2 ^ 31 ->
  count_inputs w l c =
  mkCounters (online c + how_many _ _ (live _ _) l)
             (offline c + how_many _ _ (replaying _ _) l)
             (loading c + how_many _ _ (still_loading w) l).
Proof.
  revert c. induction l as [|x l IH]; intros c Hon Hoff Hld.
  - intros _ _ _. unfold how_many. cbn. rewrite !Z.add_0_r. now destruct c.
  - rewrite !how_many_cons.
    pose proof (how_many_bounds (live _ _) l) as B1.
    pose proof (how_many_bounds (replaying _ _) l) as B2.
    pose proof (how_many_bounds (still_loading w) l) as B3.
    set (n1 := how_many _ _ (live _ _) l) in *.
    set (n2 := how_many _ _ (replaying _ _) l) in *.
    set (n3 := how_many _ _ (still_loading w) l) in *.
    unfold live, replaying, Capture.still_loading.
    cbn [Capture.count_inputs].
    destruct (is_offline (mode _ _ x)); cbn [negb andb].
    + destruct (g_source_is_destroyed (source _ _ x) w); cbn [negb];
        intros H1 H2 H3.
      * rewrite IH; cbn [online offline loading];
          rewrite ?incr_exact by lia; try lia.
        f_equal; lia.
      * rewrite IH; cbn [online offline loading];
          rewrite ?incr_exact by lia; try lia.
        f_equal; lia.
    + intros H1 H2 H3.
      rewrite IH; cbn [online offline loading];
        rewrite ?incr_exact by lia; try lia.
      f_equal; lia.
Qed.

Lemma count_inputs_from_zero (w : World) (l : list CaptureInput) :
  Z.of_nat (List.length l) < 2 ^ 31 ->
  count_inputs w l (mkCounters 0 0 0) =
  mkCounters (how_many _ _ (live _ _) l)
             (how_many _ _ (replaying _ _) l)
             (how_many _ _ (still_loading w) l).
Proof.
  intros Hlen.
  pose proof (how_many_bounds (live _ _) l) as B1.
  pose proof (how_many_bounds (replaying _ _) l) as B2.
  pose proof (how_many_bounds (still_loading w) l) as B3.
  rewrite count_inputs_exact; cbn [online offline loading]; try lia.
  reflexivity.
Qed.

Lemma still_loading_le_replaying (w : World) (l : list CaptureInput) :
  how_many _ _ (still_loading w) l <= how_many _ _ (replaying _ _) l.
Proof.
  induction l as [|x l IH].
  - unfold how_many. cbn. lia.
  - rewrite !how_many_cons.
    set (n2 := how_many _ _ (replaying _ _) l) in *.
    set (n3 := how_many _ _ (still_loading w) l) in *.
    unfold Capture.still_loading, replaying.
    destruct (is_offline (mode _ _ x)); cbn [andb];
      [destruct (negb _)|]; lia.
Qed.

(** Claim C4: for a manager whose inputs can be counted in an [int], the
    three counters are the numbers of non-offline inputs, of offline inputs
    and of offline inputs whose source is not destroyed; the text returned is
    the category chosen by (online > 0, offline > 0) followed by the suffix
    chosen by (paused, loading > 0), Paused before Loading; loading > 0
    implies offline > 0, which leaves the twelve rows listed. *)
Theorem capture_status_desc_table (m : CaptureManager) (w : World) :
  Z.of_nat (List.length (inputs _ _ _ _ _ m)) < 2 ^ 31 ->
  (count_inputs w (inputs _ _ _ _ _ m) (mkCounters 0 0 0) =
   mkCounters (how_many _ _ (live _ _) (inputs _ _ _ _ _ m))
              (how_many _ _ (replaying _ _) (inputs _ _ _ _ _ m))
              (how_many _ _ (still_loading w) (inputs _ _ _ _ _ m)))
  /\ capture_status_desc m w =
     status_text
       (paused _ _ _ _ _ m)
       (online (count_inputs w (inputs _ _ _ _ _ m) (mkCounters 0 0 0)) >? 0)
       (offline (count_inputs w (inputs _ _ _ _ _ m) (mkCounters 0 0 0)) >? 0)
       (loading (count_inputs w (inputs _ _ _ _ _ m) (mkCounters 0 0 0)) >? 0)
  /\ ((loading (count_inputs w (inputs _ _ _ _ _ m) (mkCounters 0 0 0)) >? 0)
      = true ->
      (offline (count_inputs w (inputs _ _ _ _ _ m) (mkCounters 0 0 0)) >? 0)
      = true)
  /\ (status_text true true false false = "Online (Paused)"
      /\ status_text true false true false = "Offline (Paused)"
      /\ status_text true false true true = "Offline (Paused)"
      /\ status_text true true true false = "Mixed (Paused)"
      /\ status_text true true true true = "Mixed (Paused)"
      /\ status_text true false false false = "Mixed (Paused)"
      /\ status_text false false true true = "Offline (Loading)"
      /\ status_text false true true true = "Mixed (Loading)"
      /\ status_text false true false false = "Online"
      /\ status_text false false true false = "Offline"
      /\ status_text false true true false = "Mixed"
      /\ status_text false false false false = "Mixed")%string.
Proof.
  intros Hlen.
  pose proof (count_inputs_from_zero w _ Hlen) as Hc.
  pose proof (how_many_bounds (live _ _) (inputs _ _ _ _ _ m)) as B1.
  pose proof (how_many_bounds (replaying _ _) (inputs _ _ _ _ _ m)) as B2.
  pose proof (how_many_bounds (still_loading w) (inputs _ _ _ _ _ m)) as B3.
  pose proof (still_loading_le_replaying w (inputs _ _ _ _ _ m)) as B4.
  split; [exact Hc|]. split; [|split].
  - unfold Capture.capture_status_desc. rewrite Hc.
    cbn [online offline loading].
    set (on := how_many _ _ (live _ _) (inputs _ _ _ _ _ m)) in *.
    set (off := how_many _ _ (replaying _ _) (inputs _ _ _ _ _ m)) in *.
    set (ld := how_many _ _ (still_loading w) (inputs _ _ _ _ _ m)) in *.
    assert (E1 : (on =? 0) = negb (on >? 0)).
    { destruct (Z.eqb_spec on 0), (Z.gtb_spec on 0); cbn; lia || reflexivity. }
    assert (E2 : (off =? 0) = negb (off >? 0)).
    { destruct (Z.eqb_spec off 0), (Z.gtb_spec off 0); cbn; lia || reflexivity. }
    rewrite E1, E2.
    destruct (paused _ _ _ _ _ m), (on >? 0), (off >? 0), (ld >? 0);
      reflexivity.
  - rewrite Hc. cbn [online offline loading].
    rewrite !Z.gtb_ltb, !Z.ltb_lt. lia.
  - repeat split.
Qed.

(** *** The outcome of setting the filter, whatever the inputs do *)

Local Abbreviation with_filter :=
  (with_filter World Packet GSource GMainLoop GThread).
Local Abbreviation bind := (@bind World Packet GSource GMainLoop GThread).
Local Abbreviation ret := (@ret World Packet GSource GMainLoop GThread).
Local Abbreviation call_write :=
  (call_write World Packet GSource GMainLoop GThread).
Local Abbreviation output_packets :=
  (output_packets World Packet GSource GMainLoop GThread).
Local Abbreviation capture_manager_free :=
  (capture_manager_free World Packet GSource GMainLoop GThread).
Local Abbreviation capture_manager_add_output :=
  (capture_manager_add_output World Packet GSource GMainLoop GThread).
Local Abbreviation capture_manager_set_pause :=
  (capture_manager_set_pause World Packet GSource GMainLoop GThread).
Local Abbreviation capture_sources_count :=
  (capture_sources_count World Packet GSource GMainLoop GThread).

(** [capture_manager_set_filter] always returns, and the filter the manager
    holds afterwards is the expression when the answer is TRUE and NULL when
    it is FALSE, whatever filter it held before; nothing else in the manager
    changes. *)
Theorem capture_manager_set_filter_outcome
        (m : CaptureManager) (expr : option string) (st : State) :
  fst (capture_manager_set_filter m expr st)
  = (fst (fst (capture_manager_set_filter m expr st)),
     with_filter m
       (if fst (fst (capture_manager_set_filter m expr st))
        then expr else None))
  /\ capture_manager_filter (snd (fst (capture_manager_set_filter m expr st)))
     = (if fst (fst (capture_manager_set_filter m expr st))
        then expr else None).
Proof.
  destruct (accepts_or_first_rejection expr (inputs _ _ _ _ _ m) (world st))
    as [[w' Hacc]|(l1 & x & l2 & cb & w1 & w2 & Hl & Hacc & Hx & Hrej)].
  - unfold Capture.capture_manager_set_filter.
    rewrite (set_filter_from_accepts m _ expr st w' Hacc).
    split; reflexivity.
  - unfold Capture.capture_manager_set_filter. rewrite Hl.
    rewrite (set_filter_from_rejects m l1 x l2 expr st cb w1 w2 Hacc Hx Hrej).
    split; reflexivity.
Qed.

(** Inputs without a filter operation are passed over: when no registered
    input has one, the expression is stored and TRUE returned without any
    call and without any change to the world. *)
Theorem capture_manager_set_filter_unsupported
        (m : CaptureManager) (expr : option string) (st : State) :
  Forall (fun input => filter _ _ input = None) (inputs _ _ _ _ _ m) ->
  capture_manager_set_filter m expr st = ((true, with_filter m expr), st).
Proof.
  unfold Capture.capture_manager_set_filter.
  generalize (inputs _ _ _ _ _ m) as l.
  induction l as [|input next IH]; intros H; [reflexivity|].
  inversion H as [|? ? Hf Hnext]; subst.
  cbn [Capture.set_filter_from]. rewrite Hf. now apply IH.
Qed.

(** *** Registration *)

Variable g_source_attach : GSource -> GMainLoop -> World -> World.
Local Abbreviation capture_manager_add_input :=
  (capture_manager_add_input World Packet GSource GMainLoop GThread
                             g_source_attach).

Lemma is_online_from_app (l1 l2 : list CaptureInput) :
  is_online_from _ _ (l1 ++ l2)
  = is_online_from _ _ l1 && is_online_from _ _ l2.
Proof.
  induction l1 as [|input next IH]; [reflexivity|].
  cbn [app Capture.is_online_from].
  destruct (is_offline (mode _ _ input)); [reflexivity|exact IH].
Qed.


(** An output registered last is served last: a packet given to the
    manager with the new output goes through the outputs registered before,
    then to the write operation of the new one, if it has one. *)
Theorem capture_manager_add_output_then_packet
        (m : CaptureManager) (output : CaptureOutput) (p : Packet)
        (st : State) :
  capture_manager_output_packet (capture_manager_add_output m output) p st
  = bind (capture_manager_output_packet m p)
         (fun _ => match write _ _ output with
                   | Some cb => call_write output cb p
                   | None => ret tt
                   end)
         st.
Proof.
  unfold Capture.capture_manager_output_packet.
  cbn [Capture.capture_manager_add_output outputs].
  unfold Capture.bind at 1. rewrite !output_packet_run.
  rewrite filter_app, map_app. unfold written_world. rewrite fold_left_app.
  cbn [List.filter fold_left map].
  destruct (write _ _ output) as [cb|] eqn:Hw.
  - replace (has_write _ _ output) with true
      by (unfold has_write; now rewrite Hw).
    cbv [Capture.call_write Capture.bind Capture.act Capture.record].
    cbn [Capture.calls Capture.world map].
    now rewrite <- app_assoc.
  - replace (has_write _ _ output) with false
      by (unfold has_write; now rewrite Hw).
    cbn [map]. now rewrite app_nil_r.
Qed.

(** *** Packets in sequence, stop twice, release *)

(** Packets handed over one after the other are fanned out one after the
    other: every output with a write operation gets the first packet before
    any output gets the second. *)
Theorem output_packets_calls
        (m : CaptureManager) (ps : list Packet) (st : State) :
  output_packets m ps st =
  (tt,
   mkState
     (calls st
      ++ flat_map (fun p => map (fun output => EvWrite output p)
                                (List.filter (has_write _ _)
                                             (outputs _ _ _ _ _ m)))
                  ps)
     (fold_left (fun w p => written_world _ _ (outputs _ _ _ _ _ m) p w)
                ps (world st))).
Proof.
  revert st. induction ps as [|p rest IH]; intros st.
  - cbn. rewrite app_nil_r. now destruct st.
  - cbn [Capture.output_packets flat_map fold_left].
    unfold Capture.bind, Capture.capture_manager_output_packet.
    rewrite output_packet_run, IH.
    cbn [Capture.calls Capture.world]. now rewrite <- app_assoc.
Qed.

(** [capture_manager_stop] keeps no record of having run: called again, it
    closes every output again, quits the loop again and joins the same
    thread handle again. *)
Theorem capture_manager_stop_twice (m : CaptureManager) (st : State) :
  bind (capture_manager_stop m) (fun _ => capture_manager_stop m) st =
  (tt,
   mkState
     (calls st
      ++ (map EvClose (List.filter (has_close _ _) (outputs _ _ _ _ _ m))
          ++ [EvLoopQuit (loop _ _ _ _ _ m);
              EvThreadJoin (thread _ _ _ _ _ m)])
      ++ (map EvClose (List.filter (has_close _ _) (outputs _ _ _ _ _ m))
          ++ [EvLoopQuit (loop _ _ _ _ _ m);
              EvThreadJoin (thread _ _ _ _ _ m)]))
     (g_thread_join (thread _ _ _ _ _ m)
        (g_main_loop_quit (loop _ _ _ _ _ m)
           (closed_world _ _ (outputs _ _ _ _ _ m)
              (g_thread_join (thread _ _ _ _ _ m)
                 (g_main_loop_quit (loop _ _ _ _ _ m)
                    (closed_world _ _ (outputs _ _ _ _ _ m) (world st)))))))).
Proof.
  assert (Hstop : forall st0,
    capture_manager_stop m st0 =
    (tt,
     mkState
       (calls st0
        ++ map EvClose (List.filter (has_close _ _) (outputs _ _ _ _ _ m))
        ++ [EvLoopQuit (loop _ _ _ _ _ m); EvThreadJoin (thread _ _ _ _ _ m)])
       (g_thread_join (thread _ _ _ _ _ m)
          (g_main_loop_quit (loop _ _ _ _ _ m)
             (closed_world _ _ (outputs _ _ _ _ _ m) (world st0)))))).
  { intros st0. unfold Capture.capture_manager_stop, Capture.bind at 1.
    rewrite stop_outputs_run.
    cbv [Capture.bind Capture.act Capture.record].
    cbn [Capture.calls Capture.world].
    now rewrite <- !app_assoc. }
  unfold Capture.bind. rewrite Hstop, Hstop.
  cbn [Capture.calls Capture.world].
  now rewrite <- !app_assoc.
Qed.

Lemma free_inputs_run (l : list CaptureInput) (st : State) :
  free_inputs World Packet GSource GMainLoop GThread l st =
  (tt, mkState (calls st)
               (fold_left (fun acc input =>
                             match free _ _ input with
                             | Some cb => cb acc
                             | None => acc
                             end) l (world st))).
Proof.
  revert st. induction l as [|input next IH]; intros st.
  - cbn. now destruct st.
  - cbn [Capture.free_inputs fold_left].
    destruct (free _ _ input) as [cb|].
    + cbv [Capture.bind Capture.act]. now rewrite IH.
    + apply IH.
Qed.

Lemma free_outputs_run (l : list CaptureOutput) (st : State) :
  free_outputs World Packet GSource GMainLoop GThread l st =
  (tt, mkState (calls st)
               (fold_left (fun acc output =>
                             match ofree _ _ output with
                             | Some cb => cb acc
                             | None => acc
                             end) l (world st))).
Proof.
  revert st. induction l as [|output next IH]; intros st.
  - cbn. now destruct st.
  - cbn [Capture.free_outputs fold_left].
    destruct (ofree _ _ output) as [cb|].
    + cbv [Capture.bind Capture.act]. now rewrite IH.
    + apply IH.
Qed.

(** [capture_manager_free] runs the free operation of every input that has
    one, in registration order, then that of every output that has one; it
    calls no filter, write or close operation, so an output that was not
    stopped is released unclosed. *)
Theorem capture_manager_free_effect (m : CaptureManager) (st : State) :
  capture_manager_free m st =
  (tt, mkState (calls st)
               (freed_world _ _ _ (inputs _ _ _ _ _ m) (outputs _ _ _ _ _ m)
                            (world st))).
Proof.
  unfold Capture.capture_manager_free, Capture.bind.
  rewrite free_inputs_run, free_outputs_run. reflexivity.
Qed.

(** *** The status text, the online test and the pause flag *)

Lemma capture_status_desc_counts (m : CaptureManager) (w : World) :
  Z.of_nat (List.length (inputs _ _ _ _ _ m)) < 2 ^ 31 ->
  capture_status_desc m w =
  status_text (paused _ _ _ _ _ m)
    (how_many _ _ (live _ _) (inputs _ _ _ _ _ m) >? 0)
    (how_many _ _ (replaying _ _) (inputs _ _ _ _ _ m) >? 0)
    (how_many _ _ (still_loading w) (inputs _ _ _ _ _ m) >? 0).
Proof.
  intros Hlen.
  pose proof (how_many_bounds (live _ _) (inputs _ _ _ _ _ m)) as B1.
  pose proof (how_many_bounds (replaying _ _) (inputs _ _ _ _ _ m)) as B2.
  unfold Capture.capture_status_desc.
  rewrite (count_inputs_from_zero w _ Hlen). cbn [online offline loading].
  set (on := how_many _ _ (live _ _) (inputs _ _ _ _ _ m)) in *.
  set (off := how_many _ _ (replaying _ _) (inputs _ _ _ _ _ m)) in *.
  set (ld := how_many _ _ (still_loading w) (inputs _ _ _ _ _ m)) in *.
  assert (E1 : (on =? 0) = negb (on >? 0)).
  { destruct (Z.eqb_spec on 0), (Z.gtb_spec on 0); cbn; lia || reflexivity. }
  assert (E2 : (off =? 0) = negb (off >? 0)).
  { destruct (Z.eqb_spec off 0), (Z.gtb_spec off 0); cbn; lia || reflexivity. }
  rewrite E1, E2.
  destruct (paused _ _ _ _ _ m), (on >? 0), (off >? 0), (ld >? 0);
    reflexivity.
Qed.

Lemma live_plus_replaying (l : list CaptureInput) :
  how_many _ _ (live _ _) l + how_many _ _ (replaying _ _) l
  = Z.of_nat (List.length l).
Proof.
  induction l as [|x l IH]; [reflexivity|].
  rewrite !how_many_cons. cbn [List.length].
  unfold live at 1, replaying at 1.
  destruct (is_offline (mode _ _ x)); cbn [negb]; lia.
Qed.

Lemma is_online_from_replaying (l : list CaptureInput) :
  is_online_from _ _ l = (how_many _ _ (replaying _ _) l =? 0).
Proof.
  induction l as [|x l IH]; [reflexivity|].
  rewrite how_many_cons. cbn [Capture.is_online_from].
  pose proof (how_many_bounds (replaying _ _) l) as B.
  unfold replaying at 1.
  destruct (is_offline (mode _ _ x)).
  - symmetry. apply Z.eqb_neq. lia.
  - rewrite IH. reflexivity.
Qed.

(** Of the nine literals in [capture_status_desc] eight can be returned:
    "Online (Loading)" never is, since only an offline input can be
    loading. *)
Theorem capture_status_desc_range (m : CaptureManager) (w : World) :
  Z.of_nat (List.length (inputs _ _ _ _ _ m)) < 2 ^ 31 ->
  In (capture_status_desc m w)
     ["Online"; "Offline"; "Mixed";
      "Online (Paused)"; "Offline (Paused)"; "Mixed (Paused)";
      "Offline (Loading)"; "Mixed (Loading)"]%string
  /\ capture_status_desc m w <> "Online (Loading)"%string.
Proof.
  intros Hlen. rewrite (capture_status_desc_counts m w Hlen).
  pose proof (still_loading_le_replaying w (inputs _ _ _ _ _ m)) as B.
  destruct (Z.gtb_spec (how_many _ _ (still_loading w) (inputs _ _ _ _ _ m)) 0)
    as [Hld|Hld];
    destruct (Z.gtb_spec (how_many _ _ (replaying _ _) (inputs _ _ _ _ _ m)) 0)
    as [Hoff|Hoff]; try lia;
    destruct (paused _ _ _ _ _ m),
             (how_many _ _ (live _ _) (inputs _ _ _ _ _ m) >? 0);
    (split; [cbn; tauto|discriminate]).
Qed.

(** With at least one input registered, [capture_is_online] is true exactly
    when the status text is in the Online category; with none registered it
    is true although the status text is in the Mixed category. *)
Theorem capture_is_online_and_status (m : CaptureManager) (w : World) :
  Z.of_nat (List.length (inputs _ _ _ _ _ m)) < 2 ^ 31 ->
  (inputs _ _ _ _ _ m <> [] ->
   (capture_is_online m = true <->
    capture_status_desc m w = "Online"%string
    \/ capture_status_desc m w = "Online (Paused)"%string))
  /\ (inputs _ _ _ _ _ m = [] ->
      capture_is_online m = true
      /\ capture_status_desc m w
         = (if paused _ _ _ _ _ m then "Mixed (Paused)" else "Mixed")%string).
Proof.
  intros Hlen. split.
  - intros Hne. rewrite (capture_status_desc_counts m w Hlen).
    unfold Capture.capture_is_online. rewrite is_online_from_replaying.
    pose proof (still_loading_le_replaying w (inputs _ _ _ _ _ m)) as B.
    pose proof (how_many_bounds (still_loading w) (inputs _ _ _ _ _ m)) as B3.
    pose proof (how_many_bounds (replaying _ _) (inputs _ _ _ _ _ m)) as B2.
    pose proof (live_plus_replaying (inputs _ _ _ _ _ m)) as Hsum.
    assert (Hpos : 0 < Z.of_nat (List.length (inputs _ _ _ _ _ m))).
    { destruct (inputs _ _ _ _ _ m); [congruence|cbn [List.length]; lia]. }
    rewrite Z.eqb_eq.
    destruct (Z.gtb_spec (how_many _ _ (still_loading w) (inputs _ _ _ _ _ m)) 0)
      as [Hld|Hld];
      destruct (Z.gtb_spec (how_many _ _ (replaying _ _) (inputs _ _ _ _ _ m)) 0)
      as [Hoff|Hoff];
      destruct (Z.gtb_spec (how_many _ _ (live _ _) (inputs _ _ _ _ _ m)) 0)
      as [Hon|Hon]; try lia;
      destruct (paused _ _ _ _ _ m); cbn;
      (split; [intros H; try lia; tauto
              |intros [H|H]; try discriminate H; lia]).
  - intros Hnil. split.
    + unfold Capture.capture_is_online. now rewrite Hnil.
    + unfold Capture.capture_status_desc. rewrite Hnil. reflexivity.
Qed.

(** The pause flag is advisory: it changes the suffix of the status text,
    where it takes the place of the Loading suffix, and nothing else; a
    paused manager fans packets out, stops and answers the online test as
    an unpaused one. *)
Theorem capture_manager_set_pause_effect
        (m : CaptureManager) (b : bool) (w : World) :
  Z.of_nat (List.length (inputs _ _ _ _ _ m)) < 2 ^ 31 ->
  capture_status_desc (capture_manager_set_pause m b) w
  = (status_category
       (how_many _ _ (live _ _) (inputs _ _ _ _ _ m) >? 0)
       (how_many _ _ (replaying _ _) (inputs _ _ _ _ _ m) >? 0)
     ++ (if b then " (Paused)"
         else if how_many _ _ (still_loading w) (inputs _ _ _ _ _ m) >? 0
              then " (Loading)" else ""))%string
  /\ (forall p st,
        capture_manager_output_packet (capture_manager_set_pause m b) p st
        = capture_manager_output_packet m p st)
  /\ (forall st,
        capture_manager_stop (capture_manager_set_pause m b) st
        = capture_manager_stop m st)
  /\ capture_is_online (capture_manager_set_pause m b) = capture_is_online m
  /\ capture_manager_filter (capture_manager_set_pause m b)
     = capture_manager_filter m.
Proof.
  intros Hlen. split; [|repeat split].
  rewrite capture_status_desc_counts by exact Hlen.
  cbn [Capture.capture_manager_set_pause inputs paused].
  unfold status_text, status_suffix. reflexivity.
Qed.

Lemma how_many_perm (f : CaptureInput -> bool) (l l' : list CaptureInput) :
  Permutation l l' -> how_many _ _ f l = how_many _ _ f l'.
Proof.
  intros H. induction H as [|x l l' _ IH|x y l|l l' l'' _ IH1 _ IH2].
  - reflexivity.
  - rewrite !how_many_cons. lia.
  - rewrite !how_many_cons. lia.
  - lia.
Qed.

(** Neither the status text nor the online test depends on the order in
    which the inputs were registered. *)
Theorem status_and_online_ignore_order
        (m m' : CaptureManager) (w : World) :
  Permutation (inputs _ _ _ _ _ m) (inputs _ _ _ _ _ m') ->
  paused _ _ _ _ _ m = paused _ _ _ _ _ m' ->
  Z.of_nat (List.length (inputs _ _ _ _ _ m)) < 2 ^ 31 ->
  capture_status_desc m w = capture_status_desc m' w
  /\ capture_is_online m = capture_is_online m'.
Proof.
  intros Hperm Hp Hlen.
  assert (Hlen' : Z.of_nat (List.length (inputs _ _ _ _ _ m')) < 2 ^ 31)
    by now rewrite <- (Permutation_length Hperm).
  split.
  - rewrite !capture_status_desc_counts by assumption.
    now rewrite Hp, !(how_many_perm _ _ _ Hperm).
  - unfold Capture.capture_is_online.
    now rewrite !is_online_from_replaying, (how_many_perm _ _ _ Hperm).
Qed.

(** *** Construction and start *)

Variable g_main_loop_new : World -> GMainLoop * World.
Variable g_thread_new : GMainLoop -> World -> GThread * World.
Variable no_thread : GThread.
Local Abbreviation capture_manager_new :=
  (capture_manager_new World Packet GSource GMainLoop GThread
                       g_main_loop_new no_thread).
Local Abbreviation capture_manager_start :=
  (capture_manager_start World Packet GSource GMainLoop GThread g_thread_new).

(** A manager as [capture_manager_new] makes it has no inputs, outputs,
    filter or key file and is not paused; it counts as online with zero
    sources while its status text is "Mixed"; stopped without having been
    started, it quits its loop and joins the NULL thread handle. *)
Theorem capture_manager_new_is_empty (st : State) :
  inputs _ _ _ _ _ (fst (capture_manager_new st)) = []
  /\ outputs _ _ _ _ _ (fst (capture_manager_new st)) = []
  /\ capture_manager_filter (fst (capture_manager_new st)) = None
  /\ capture_keyfile _ _ _ _ _ (fst (capture_manager_new st)) = None
  /\ paused _ _ _ _ _ (fst (capture_manager_new st)) = false
  /\ loop _ _ _ _ _ (fst (capture_manager_new st))
     = fst (g_main_loop_new (world st))
  /\ capture_is_online (fst (capture_manager_new st)) = true
  /\ capture_sources_count (fst (capture_manager_new st)) = 0
  /\ (forall w, capture_status_desc (fst (capture_manager_new st)) w
                = "Mixed"%string)
  /\ calls (snd (capture_manager_stop (fst (capture_manager_new st))
                                      (snd (capture_manager_new st))))
     = calls st ++ [EvLoopQuit (fst (g_main_loop_new (world st)));
                    EvThreadJoin no_thread].
Proof.
  unfold Capture.capture_manager_new, Capture.bind, Capture.ask, Capture.ret.
  destruct (g_main_loop_new (world st)) as [l w1].
  repeat split.
  cbv [Capture.capture_manager_stop Capture.stop_outputs Capture.bind
       Capture.act Capture.record Capture.ret].
  cbn [fst snd Capture.calls outputs loop thread].
  now rewrite <- app_assoc.
Qed.


End WithWorld.

(** *** The properties on the sample instances *)

Example stop_sample :
  capture_manager_stop _ _ _ _ _ Sample.g_main_loop_quit Sample.g_thread_join
    (Sample.manager_of [] [Sample.pcap_dump; Sample.hep_send; Sample.txt_sink]
                       false)
    Sample.start_state
  = (tt,
     mkState _ _ _ _ _
       [EvClose _ _ _ _ _ Sample.pcap_dump;
        EvClose _ _ _ _ _ Sample.txt_sink;
        EvLoopQuit _ _ _ _ _ tt;
        EvThreadJoin _ _ _ _ _ tt]
       ["dump: closed"; "txt: closed"; "loop quit"; "thread joined"]%string).
Proof. reflexivity. Qed.

Example output_packet_sample :
  capture_manager_output_packet _ _ _ _ _
    (Sample.manager_of [] [Sample.pcap_dump; Sample.txt_sink; Sample.hep_send]
                       false)
    42 Sample.start_state
  = (tt,
     mkState _ _ _ _ _
       [EvWrite _ _ _ _ _ Sample.pcap_dump 42;
        EvWrite _ _ _ _ _ Sample.hep_send 42]
       ["dump: written"; "hep: sent"]%string).
Proof. reflexivity. Qed.

Lemma capture_is_online_iff_witness :
  In Sample.pcap_file [Sample.pcap_live; Sample.pcap_file]
  /\ mode _ _ Sample.pcap_file = CAPTURE_MODE_OFFLINE
  /\ capture_is_online _ _ _ _ _
       (Sample.manager_of [Sample.pcap_live; Sample.pcap_file] [] false)
     = false
  /\ capture_is_online _ _ _ _ _ (Sample.manager_of [] [] false) = true.
Proof.
  assert (Hin : In Sample.pcap_file [Sample.pcap_live; Sample.pcap_file])
    by (right; left; reflexivity).
  split; [exact Hin|]. split; [reflexivity|]. split.
  - destruct (capture_is_online_iff
                (Sample.manager_of [Sample.pcap_live; Sample.pcap_file] []
                                   false)) as (_ & _ & Hoff).
    exact (Hoff Sample.pcap_file Hin eq_refl).
  - destruct (capture_is_online_iff (Sample.manager_of [] [] false))
      as (_ & Hempty & _).
    exact (Hempty eq_refl).
Defined.

Lemma capture_status_desc_table_witness :
  Z.of_nat (List.length [Sample.pcap_live; Sample.pcap_file]) < 2 ^ 31
  /\ capture_sources_count _ _ _ _ _
       (Sample.manager_of [Sample.pcap_live; Sample.pcap_file] [] false) = 2
  /\ capture_status_desc _ _ _ _ _ Sample.g_source_is_destroyed
       (Sample.manager_of [Sample.pcap_live; Sample.pcap_file] [] false) []
     = "Mixed (Loading)"%string.
Proof.
  assert (Hlen : Z.of_nat (List.length [Sample.pcap_live; Sample.pcap_file])
                 < 2 ^ 31) by (vm_compute; reflexivity).
  split; [exact Hlen|]. split; [reflexivity|].
  exact (proj1 (proj2 (capture_status_desc_table
                         Sample.g_source_is_destroyed
                         (Sample.manager_of
                            [Sample.pcap_live; Sample.pcap_file] [] false)
                         [] Hlen))).
Defined.

Lemma capture_manager_set_filter_spec_witness :
  accepts_all _ _ (Some "udp port 5060"%string)
    [Sample.pcap_live; Sample.hep_listen; Sample.pcap_file] []
    ["live: filter set"; "file: filter set"]%string
  /\ capture_manager_set_filter _ _ _ _ _
       (Sample.manager_of
          [Sample.pcap_live; Sample.hep_listen; Sample.pcap_file] [] false)
       (Some "udp port 5060"%string) Sample.start_state
     = ((true,
         with_filter _ _ _ _ _
           (Sample.manager_of
              [Sample.pcap_live; Sample.hep_listen; Sample.pcap_file] []
              false)
           (Some "udp port 5060"%string)),
        mkState _ _ _ _ _
          [EvFilter _ _ _ _ _ Sample.pcap_live
                    (Some "udp port 5060"%string) true;
           EvFilter _ _ _ _ _ Sample.pcap_file
                    (Some "udp port 5060"%string) true]
          ["live: filter set"; "file: filter set"]%string)
  /\ capture_manager_set_filter _ _ _ _ _
       (Sample.manager_of
          [Sample.pcap_live; Sample.pcap_picky; Sample.pcap_file] [] false)
       (Some "udp port 5060"%string) Sample.start_state
     = ((false,
         with_filter _ _ _ _ _
           (Sample.manager_of
              [Sample.pcap_live; Sample.pcap_picky; Sample.pcap_file] []
              false)
           None),
        mkState _ _ _ _ _
          [EvFilter _ _ _ _ _ Sample.pcap_live
                    (Some "udp port 5060"%string) true;
           EvFilter _ _ _ _ _ Sample.pcap_picky
                    (Some "udp port 5060"%string) false]
          ["live: filter set"; "picky: syntax error"]%string).
Proof.
  assert (Hall : accepts_all _ _ (Some "udp port 5060"%string)
                   [Sample.pcap_live; Sample.hep_listen; Sample.pcap_file] []
                   ["live: filter set"; "file: filter set"]%string).
  { eapply accepts_cons; [reflexivity|reflexivity|].
    eapply accepts_skip; [reflexivity|].
    eapply accepts_cons; [reflexivity|reflexivity|].
    apply accepts_nil. }
  assert (Hone : accepts_all _ _ (Some "udp port 5060"%string)
                   [Sample.pcap_live] [] ["live: filter set"]%string).
  { eapply accepts_cons; [reflexivity|reflexivity|]. apply accepts_nil. }
  split; [exact Hall|]. split.
  - destruct (capture_manager_set_filter_spec
                (Sample.manager_of
                   [Sample.pcap_live; Sample.hep_listen; Sample.pcap_file] []
                   false)
                (Some "udp port 5060"%string) Sample.start_state)
      as (Hok & _).
    exact (Hok _ Hall).
  - destruct (capture_manager_set_filter_spec
                (Sample.manager_of
                   [Sample.pcap_live; Sample.pcap_picky; Sample.pcap_file] []
                   false)
                (Some "udp port 5060"%string) Sample.start_state)
      as (_ & Hrej & _).
    exact (Hrej [Sample.pcap_live] Sample.pcap_picky [Sample.pcap_file]
                (Sample.rejecting "picky: syntax error"%string)
                ["live: filter set"%string]
                ["live: filter set"; "picky: syntax error"]%string
                eq_refl Hone eq_refl eq_refl).
Defined.

Lemma capture_manager_set_filter_unsupported_witness :
  Forall (fun input => filter _ _ input = None)
         [Sample.hep_listen; Sample.hep_listen]
  /\ capture_manager_set_filter _ _ _ _ _
       (Sample.manager_of [Sample.hep_listen; Sample.hep_listen] [] false)
       (Some "port 5060"%string) Sample.start_state
     = ((true,
         with_filter _ _ _ _ _
           (Sample.manager_of [Sample.hep_listen; Sample.hep_listen] []
                              false)
           (Some "port 5060"%string)),
        Sample.start_state).
Proof.
  assert (H : Forall (fun input : Sample.Input => filter _ _ input = None)
                     [Sample.hep_listen; Sample.hep_listen])
    by (repeat constructor).
  split; [exact H|].
  exact (capture_manager_set_filter_unsupported
           (Sample.manager_of [Sample.hep_listen; Sample.hep_listen] [] false)
           (Some "port 5060"%string) Sample.start_state H).
Defined.

Lemma capture_status_desc_range_witness :
  Z.of_nat (List.length [Sample.pcap_file; Sample.hep_listen]) < 2 ^ 31
  /\ capture_status_desc _ _ _ _ _ Sample.g_source_is_destroyed
       (Sample.manager_of [Sample.pcap_file; Sample.hep_listen] [] false) []
     <> "Online (Loading)"%string.
Proof.
  assert (Hlen : Z.of_nat (List.length [Sample.pcap_file; Sample.hep_listen])
                 < 2 ^ 31) by (vm_compute; reflexivity).
  split; [exact Hlen|].
  exact (proj2 (capture_status_desc_range Sample.g_source_is_destroyed
                  (Sample.manager_of [Sample.pcap_file; Sample.hep_listen]
                                     [] false) [] Hlen)).
Defined.

Lemma capture_is_online_and_status_witness :
  Z.of_nat (List.length [Sample.pcap_live; Sample.hep_listen]) < 2 ^ 31
  /\ [Sample.pcap_live; Sample.hep_listen] <> []
  /\ capture_status_desc _ _ _ _ _ Sample.g_source_is_destroyed
       (Sample.manager_of [Sample.pcap_live; Sample.hep_listen] [] true) []
     = "Online (Paused)"%string
  /\ capture_is_online _ _ _ _ _
       (Sample.manager_of [Sample.pcap_live; Sample.hep_listen] [] true)
     = true.
Proof.
  assert (Hlen : Z.of_nat (List.length [Sample.pcap_live; Sample.hep_listen])
                 < 2 ^ 31) by (vm_compute; reflexivity).
  assert (Hne : [Sample.pcap_live; Sample.hep_listen] <> []) by discriminate.
  assert (Hd : capture_status_desc _ _ _ _ _ Sample.g_source_is_destroyed
                 (Sample.manager_of [Sample.pcap_live; Sample.hep_listen] []
                                    true) []
               = "Online (Paused)"%string) by reflexivity.
  split; [exact Hlen|]. split; [exact Hne|]. split; [exact Hd|].
  exact (proj2 (proj1 (capture_is_online_and_status
                         Sample.g_source_is_destroyed
                         (Sample.manager_of
                            [Sample.pcap_live; Sample.hep_listen] [] true)
                         [] Hlen) Hne)
               (or_intror Hd)).
Defined.

Lemma capture_manager_set_pause_effect_witness :
  Z.of_nat (List.length [Sample.pcap_live; Sample.pcap_file]) < 2 ^ 31
  /\ capture_status_desc _ _ _ _ _ Sample.g_source_is_destroyed
       (capture_manager_set_pause _ _ _ _ _
          (Sample.manager_of [Sample.pcap_live; Sample.pcap_file] [] false)
          true) []
     = "Mixed (Paused)"%string.
Proof.
  assert (Hlen : Z.of_nat (List.length [Sample.pcap_live; Sample.pcap_file])
                 < 2 ^ 31) by (vm_compute; reflexivity).
  split; [exact Hlen|].
  exact (proj1 (capture_manager_set_pause_effect
                  Sample.g_source_is_destroyed Sample.g_main_loop_quit
                  Sample.g_thread_join
                  (Sample.manager_of [Sample.pcap_live; Sample.pcap_file]
                                     [] false) true [] Hlen)).
Defined.

Lemma status_and_online_ignore_order_witness :
  Permutation [Sample.pcap_live; Sample.pcap_file]
              [Sample.pcap_file; Sample.pcap_live]
  /\ Z.of_nat (List.length [Sample.pcap_live; Sample.pcap_file]) < 2 ^ 31
  /\ capture_status_desc _ _ _ _ _ Sample.g_source_is_destroyed
       (Sample.manager_of [Sample.pcap_live; Sample.pcap_file] [] false) []
     = capture_status_desc _ _ _ _ _ Sample.g_source_is_destroyed
         (Sample.manager_of [Sample.pcap_file; Sample.pcap_live] [] false) [].
Proof.
  assert (Hp : Permutation [Sample.pcap_live; Sample.pcap_file]
                           [Sample.pcap_file; Sample.pcap_live])
    by apply perm_swap.
  assert (Hlen : Z.of_nat (List.length [Sample.pcap_live; Sample.pcap_file])
                 < 2 ^ 31) by (vm_compute; reflexivity).
  split; [exact Hp|]. split; [exact Hlen|].
  exact (proj1 (status_and_online_ignore_order
                  Sample.g_source_is_destroyed
                  (Sample.manager_of [Sample.pcap_live; Sample.pcap_file]
                                     [] false)
                  (Sample.manager_of [Sample.pcap_file; Sample.pcap_live]
                                     [] false)
                  [] Hp eq_refl Hlen)).
Defined.

End CaptureFacts.
